(** * monsoon: the fuzz reporter (cmd/fuzz/reporter.go)

    A shallow embedding of the statistics accumulator [HTTPStats], of the
    duration formatter [formatSeconds], of the log-mirroring terminal
    [LogTerminal] and of the reporting loop [Reporter.Display], together
    with the properties the specification states about them.

    Conventions of the embedding:
    - Go's [int] is the 64-bit two's complement integer: a [Z] kept in range
      by [GoInt.wrap] after every arithmetic operation;
    - Go's [float64] is IEEE 754 binary64, through the Standard Library's
      [spec_float] with precision 53 and maximal exponent 1024;
    - strings are byte strings ([string]), compared bytewise as Go does;
    - [map[int]int] is a [gmap Z Z];
    - the wall clock, the two channels and the terminal are made explicit:
      clock readings and channel contents are inputs, terminal calls are
      collected in a trace. *)

From Stdlib Require Import ZArith QArith Qround Lia Bool List.
From Stdlib Require Import Ascii String DecimalString.
From Stdlib Require Import SpecFloat.
From stdpp Require Import base strings gmap sorting.

Local Open Scope Z_scope.

(** * Part I: the embedding *)

(** ** Go's [int] *)

Module GoInt.

Definition min_int : Z := - 2 ^ 63.
Definition max_int : Z := 2 ^ 63 - 1.

Definition in_range (z : Z) : Prop := min_int <= z <= max_int.

(** Two's complement wrap-around of a mathematical integer. *)
Definition wrap (z : Z) : Z := (z + 2 ^ 63) mod 2 ^ 64 - 2 ^ 63.

Definition add (a b : Z) : Z := wrap (a + b).
Definition sub (a b : Z) : Z := wrap (a - b).
Definition mul (a b : Z) : Z := wrap (a * b).

(** [a / b] on [int]: the quotient truncated toward zero (the divisors the
    reporter uses are the constants 3600 and 60). *)
Definition quot (a b : Z) : Z := wrap (Z.quot a b).

End GoInt.

(** ** Go's [float64] *)

Module GoFloat.

Definition prec : Z := 53.
Definition emax : Z := 1024.

(** The zero value of [float64]. *)
Definition zero : spec_float := S754_zero false.

(** [float64(n)] for an integer [n]: the nearest binary64 value, ties to
    even. *)
Definition of_int (n : Z) : spec_float := binary_normalize prec emax n 0 false.

Definition add : spec_float -> spec_float -> spec_float := SFadd prec emax.
Definition div : spec_float -> spec_float -> spec_float := SFdiv prec emax.

(** [x > 0] on floats (false on NaN). *)
Definition gt0 (x : spec_float) : bool := SFltb zero x.

(** The integer part of a finite float, rounded toward zero. *)
Definition trunc (x : spec_float) : option Z :=
  match x with
  | S754_zero _ => Some 0
  | S754_finite s m (Zneg k) => Some (Z.quot (cond_Zopp s (Zpos m)) (2 ^ Zpos k))
  | S754_finite s m e => Some (cond_Zopp s (Zpos m) * 2 ^ e)
  | S754_infinity _ | S754_nan => None
  end.

(** What the conversion [int(x)] yields when the integer part of [x] does
    not fit in an [int], or [x] is an infinity or a NaN.  The Go
    specification leaves this value to the implementation; this is the
    "integer indefinite" value of the amd64 conversion instruction. *)
Definition int_indefinite : Z := GoInt.min_int.

(** [int(x)]: the fraction is discarded (truncation toward zero). *)
Definition to_int (x : spec_float) : Z :=
  match trunc x with
  | Some z =>
      if (GoInt.min_int <=? z) && (z <=? GoInt.max_int) then z
      else int_indefinite
  | None => int_indefinite
  end.

(** The rational number a finite float denotes (0 for the others). *)
Definition value (x : spec_float) : Q :=
  match x with
  | S754_finite s m (Zneg k) => Qmake (cond_Zopp s (Zpos m)) (2 ^ k)%positive
  | S754_finite s m e => inject_Z (cond_Zopp s (Zpos m) * 2 ^ e)
  | _ => 0%Q
  end.

(** A finite float that is not below zero ([-0] counts as zero). *)
Definition nonneg (x : spec_float) : bool :=
  match x with
  | S754_zero _ | S754_finite false _ _ => true
  | _ => false
  end.

(** The floats of the format: mantissa and exponent as binary64 stores
    them. *)
Definition valid (x : spec_float) : bool := valid_binary prec emax x.

(** [math.Floor]: the largest whole float not above [x]. *)
Definition floor (x : spec_float) : spec_float :=
  match x with
  | S754_finite s m (Zneg k) => of_int (cond_Zopp s (Zpos m) / 2 ^ Zpos k)
  | _ => x
  end.

End GoFloat.

(** ** The verbs of Go's [fmt] that the reporter uses *)

Module Fmt.

Definition nl : string := String "010"%char "".

(** [%d] and [%v] of an [int]. *)
Definition d (z : Z) : string := NilZero.string_of_int (Z.to_int z).

Fixpoint repeat_char (c : ascii) (n : nat) : string :=
  match n with
  | O => ""
  | S k => String c (repeat_char c k)
  end.

Definition pad0 (w : nat) (s : string) : string :=
  repeat_char "0"%char (w - String.length s) +:+ s.

(** [%0wd] of an [int]: zeros are inserted after the sign, up to the width
    [w], sign included. *)
Definition d0 (w : nat) (z : Z) : string :=
  if z <? 0 then "-" +:+ pad0 (w - 1) (d (- z)) else pad0 w (d z).

(** [%ws] and [%-ws] of a string of one-byte characters. *)
Definition s_right (w : nat) (s : string) : string :=
  repeat_char " "%char (w - String.length s) +:+ s.
Definition s_left (w : nat) (s : string) : string :=
  s +:+ repeat_char " "%char (w - String.length s).

(** [m / 2^k] rounded to the nearest integer, ties to even. *)
Definition round_half_even (m : Z) (k : positive) : Z :=
  let q := m / 2 ^ Zpos k in
  let r := m mod 2 ^ Zpos k in
  match 2 * r ?= 2 ^ Zpos k with
  | Lt => q
  | Gt => q + 1
  | Eq => if Z.even q then q else q + 1
  end.

(** [%.0f] of a [float64]: the exact value rounded to an integer, ties to
    even; a minus sign also on what rounds to zero from below. *)
Definition f0 (x : spec_float) : string :=
  match x with
  | S754_nan => "NaN"
  | S754_infinity false => "+Inf"
  | S754_infinity true => "-Inf"
  | S754_zero s => (if s then "-" else "") +:+ "0"
  | S754_finite s m (Zneg k) =>
      (if s then "-" else "") +:+ d (round_half_even (Zpos m) k)
  | S754_finite s m e => (if s then "-" else "") +:+ d (Zpos m * 2 ^ e)
  end.

(** *** A format string printed without operands

    [fmt.Fprintf(w, format)] and [fmt.Sprintf(format)]: the library's
    [doPrintf] run on an empty operand list.  Text outside verbs is copied;
    [%%] prints one percent sign; every other verb has no operand to print
    and leaves an error marker in the output. *)

Definition code (c : ascii) : Z := Z.of_N (N_of_ascii c).

Definition is_digit (c : ascii) : bool := (48 <=? code c) && (code c <=? 57).

Definition is_flag (c : ascii) : bool :=
  match c with
  | "#" | "0" | "+" | "-" | " " => true
  | _ => false
  end%char.

Fixpoint skip_flags (s : string) : string :=
  match s with
  | String c s' => if is_flag c then skip_flags s' else s
  | EmptyString => s
  end.

(** [parsenum]: reads a decimal number; the result tells whether a digit
    was read and what follows the number.  A number above one million is
    refused and swallows the rest of the text. *)
Fixpoint parsenum (num : Z) (isnum : bool) (s : string) : bool * string :=
  match s with
  | String c s' =>
      if is_digit c then
        if 1000000 <? num then (false, "")
        else parsenum (num * 10 + (code c - 48)) true s'
      else (isnum, s)
  | EmptyString => (isnum, s)
  end.

(** Splits at the first closing bracket. *)
Fixpoint split_bracket (s : string) : option (string * string) :=
  match s with
  | EmptyString => None
  | String c s' =>
      if Ascii.eqb c "]" then Some ("", s')
      else match split_bracket s' with
           | Some (inside, rest) => Some (String c inside, rest)
           | None => None
           end
  end.

(** [argNumber] with no operand: an explicit argument index [[n]] is
    skipped; the result is what follows it, whether the index was well
    formed, and whether no index was met (no index can be in range). *)
Definition argNumber (s : string) : string * bool * bool :=
  match s with
  | String "[" s' =>
      if (String.length s <? 3)%nat then (s', false, false)
      else match split_bracket s' with
           | Some (inside, rest) =>
               let '(isnum, r) := parsenum 0 false inside in
               (rest, isnum && String.eqb r "", false)
           | None => (s', false, false)
           end
  | _ => (s, false, true)
  end.

(** The encoding of U+FFFD, which stands for a byte that starts no valid
    UTF-8 sequence. *)
Definition rune_error : string :=
  String "239"%char (String "191"%char (String "189"%char "")).

Definition between (c : ascii) (lo hi : Z) : bool :=
  (lo <=? code c) && (code c <=? hi).

(** The length of the sequence a first byte announces, and the range of
    its second byte. *)
Definition first_byte (b : Z) : nat * Z * Z :=
  if (194 <=? b) && (b <=? 223) then (2%nat, 128, 191)
  else if b =? 224 then (3%nat, 160, 191)
  else if b =? 237 then (3%nat, 128, 159)
  else if (225 <=? b) && (b <=? 239) then (3%nat, 128, 191)
  else if b =? 240 then (4%nat, 144, 191)
  else if (241 <=? b) && (b <=? 243) then (4%nat, 128, 191)
  else if b =? 244 then (4%nat, 128, 143)
  else (1%nat, 0, 0).

(** Reads the verb, one UTF-8 encoded character: its bytes as they are
    printed back, and the text after it. *)
Definition decode_rune (s : string) : string * string :=
  match s with
  | EmptyString => ("", "")
  | String c0 r0 =>
      if code c0 <? 128 then (String c0 "", r0)
      else
        let '(size, lo, hi) := first_byte (code c0) in
        match size, r0 with
        | 2%nat, String c1 r1 =>
            if between c1 lo hi then (String c0 (String c1 ""), r1)
            else (rune_error, r0)
        | 3%nat, String c1 (String c2 r2) =>
            if between c1 lo hi && between c2 128 191
            then (String c0 (String c1 (String c2 "")), r2)
            else (rune_error, r0)
        | 4%nat, String c1 (String c2 (String c3 r3)) =>
            if between c1 lo hi && between c2 128 191 && between c3 128 191
            then (String c0 (String c1 (String c2 (String c3 ""))), r3)
            else (rune_error, r0)
        | _, _ => (rune_error, r0)
        end
  end.

(** One verb, from the character after the percent sign: flags, argument
    index, width, precision, argument index, verb.  The result is the
    text printed for it and the format text left. *)
Definition verb (s : string) : string * string :=
  let s1 := skip_flags s in
  let '(s2, after1, good1) := argNumber s1 in
  let '(out_w, s3, after2, good2) :=
    match s2 with
    | String "*" s' => ("%!(BADWIDTH)", s', false, good1)
    | _ =>
        let '(present, r) := parsenum 0 false s2 in
        ("", r, after1, good1 && negb (after1 && present))
    end in
  let '(out_p, s4, after3, good3) :=
    match s3 with
    | String "." s' =>
        let '(s'', after, good) := argNumber s' in
        let good := good2 && negb after2 && good in
        match s'' with
        | String "*" r => ("%!(BADPREC)", r, false, good)
        | _ => let '(_, r) := parsenum 0 false s'' in ("", r, after, good)
        end
    | _ => ("", s3, after2, good2)
    end in
  let '(s5, good4) :=
    if after3 then (s4, good3)
    else let '(r, _, good) := argNumber s4 in (r, good3 && good) in
  match s5 with
  | EmptyString => (out_w +:+ out_p +:+ "%!(NOVERB)", "")
  | _ =>
      let '(v, rest) := decode_rune s5 in
      (out_w +:+ out_p +:+
         (if String.eqb v "%" then "%"
          else if good4 then "%!" +:+ v +:+ "(MISSING)"
          else "%!" +:+ v +:+ "(BADINDEX)"),
       rest)
  end.

(** The loop of [doPrintf]; [skip] counts the characters of the current
    verb that are still to be passed over. *)
Fixpoint doPrintf (skip : nat) (format : string) : string :=
  match format with
  | EmptyString => ""
  | String c s' =>
      match skip with
      | S k => doPrintf k s'
      | O =>
          if Ascii.eqb c "%" then
            let '(out, rest) := verb s' in
            out +:+ doPrintf (String.length s' - String.length rest) s'
          else String c (doPrintf O s')
      end
  end.

Definition Sprintf0 (format : string) : string := doPrintf O format.

End Fmt.

(** ** Go's [time] *)

Module GoTime.

(** A [time.Time] is an instant, in nanoseconds from the zero [Time]; a
    [time.Duration] is an [int] of nanoseconds. *)
Definition zeroTime : Z := 0.

Definition Second : Z := 1000000000.

(** [t.Sub(u)]: the difference, kept to the largest and smallest
    [Duration] when it does not fit. *)
Definition Sub (t u : Z) : Z :=
  Z.max GoInt.min_int (Z.min GoInt.max_int (t - u)).

(** [time.Since(t)] when the clock reads [now]. *)
Definition Since (now t : Z) : Z := Sub now t.

(** [d.Seconds()]: whole seconds plus the remaining nanoseconds over
    [1e9], in floating point. *)
Definition Seconds (d : Z) : spec_float :=
  GoFloat.add (GoFloat.of_int (Z.quot d Second))
              (GoFloat.div (GoFloat.of_int (Z.rem d Second))
                           (GoFloat.of_int 1000000000)).

(** The clock: the readings of all calls to come, and how many calls
    were made. *)
Record Clock := { reading : nat -> Z; tick : nat }.

(** [time.Now()] *)
Definition now (c : Clock) : Z * Clock :=
  (reading c (tick c), {| reading := reading c; tick := S (tick c) |}).

End GoTime.

(** ** The reporter *)

Import GoTime.

(** *** Responses and filters

    The fields of [Response] that the reporter reads.  [Error] is [None]
    for a nil error and [HTTPResponse] is [None] for a nil pointer. *)
Record http_Response := { StatusCode : Z }.

Record Response := {
  Item : string;
  Error : option string;
  HTTPResponse : option http_Response
}.

(** A [ResponseFilter] is its method [Reject]. *)
Definition ResponseFilter : Type := Response -> bool.

(** *** Terminals *)

(** A call received by a terminal.  [Printf] is recorded with the text
    [fmt.Sprintf] makes of its format and operands. *)
Inductive event :=
| EvPrintf (text : string)
| EvPrint (msg : string)
| EvSetStatus (lines : list string).

(** The interface [Terminal] ([Run] belongs to the caller of the reporter
    and is not called by it).  [Printf] takes the text [fmt.Sprintf] makes
    of its format and operands. *)
Class Terminal (T : Type) := {
  Printf : string -> T -> T;
  Print : string -> T -> T;
  SetStatus : list string -> T -> T
}.

(** A terminal that records the calls it receives, oldest first. *)
Definition Recorder : Type := list event.

#[global] Instance Recorder_Terminal : Terminal Recorder := {
  Printf text t := t ++ [EvPrintf text];
  Print msg t := t ++ [EvPrint msg];
  SetStatus lines t := t ++ [EvSetStatus lines]
}.

(** [LogTerminal]: the embedded terminal, as the messages printed on it
    and the status lines set on it, and the bytes written to [w]. *)
Record LogTerminal := {
  Terminal_printed : list string;
  Terminal_status : list (list string);
  w : string
}.

Definition HasSuffix_nl (msg : string) : bool :=
  match String.rev msg with
  | String c _ => Ascii.eqb c "010"%char
  | EmptyString => false
  end.

(** [(lt *LogTerminal) Print] *)
Definition LogTerminal_Print (msg : string) (lt : LogTerminal) : LogTerminal :=
  let msg := if HasSuffix_nl msg then msg else msg +:+ Fmt.nl in
  {| Terminal_printed := Terminal_printed lt ++ [msg];
     Terminal_status := Terminal_status lt;
     w := w lt +:+ Fmt.Sprintf0 msg |}.

(** [(lt *LogTerminal) Printf], on the text of its format and operands. *)
Definition LogTerminal_Printf (text : string) (lt : LogTerminal) : LogTerminal :=
  LogTerminal_Print text lt.

(** [SetStatus] is the embedded terminal's. *)
Definition LogTerminal_SetStatus (lines : list string) (lt : LogTerminal)
  : LogTerminal :=
  {| Terminal_printed := Terminal_printed lt;
     Terminal_status := Terminal_status lt ++ [lines];
     w := w lt |}.

#[global] Instance LogTerminal_Terminal : Terminal LogTerminal := {
  Printf := LogTerminal_Printf;
  Print := LogTerminal_Print;
  SetStatus := LogTerminal_SetStatus
}.

(** *** Statistics *)

Record HTTPStats := {
  Start : Z;
  StatusCodes : gmap Z Z;
  Errors : Z;
  Responses : Z;
  Count : Z;
  lastRPS : Z;
  rps : spec_float
}.

Definition formatSeconds (secs : spec_float) : string :=
  let sec := GoFloat.to_int secs in
  let hours := GoInt.quot sec 3600 in
  let sec := GoInt.sub sec (GoInt.mul hours 3600) in
  let min := GoInt.quot sec 60 in
  let sec := GoInt.sub sec (GoInt.mul min 60) in
  if 0 <? hours then
    Fmt.d hours +:+ "h" +:+ Fmt.d0 2 min +:+ "m" +:+ Fmt.d0 2 sec +:+ "s"
  else
    Fmt.d min +:+ "m" +:+ Fmt.d0 2 sec +:+ "s".

Definition set_rps (h : HTTPStats) (r : spec_float) : HTTPStats :=
  {| Start := Start h; StatusCodes := StatusCodes h; Errors := Errors h;
     Responses := Responses h; Count := Count h; lastRPS := lastRPS h;
     rps := r |}.

Definition set_lastRPS (h : HTTPStats) (t : Z) : HTTPStats :=
  {| Start := Start h; StatusCodes := StatusCodes h; Errors := Errors h;
     Responses := Responses h; Count := Count h; lastRPS := t; rps := rps h |}.

(** [fmt.Sprintf("%v: %v", code, count)] *)
Definition code_line (kv : Z * Z) : string :=
  Fmt.d kv.1 +:+ ": " +:+ Fmt.d kv.2.

(** [sort.Sort(sort.StringSlice(x))]: [x] in increasing order of Go's
    comparison of strings, byte by byte. *)
Definition sort_strings (x : list string) : list string :=
  merge_sort String.le x.

(** [(h *HTTPStats) Report].  Each [time.Since] and [time.Now] reads the
    clock.  The map is ranged over in the order of [map_to_list]; the
    sort makes the result the same for any order. *)
Definition Report (h : HTTPStats) (clk : Clock) (current : string)
  : list string * HTTPStats * Clock :=
  let res := [""] in
  let status := Fmt.d (Responses h) +:+ " requests" in
  let '(t1, clk) := now clk in
  let dur := Z.quot (Since t1 (Start h)) Second in
  let '(h, clk) :=
    if 0 <? dur then
      let '(t2, clk) := now clk in
      if Second <? Since t2 (lastRPS h) then
        let h :=
          set_rps h (GoFloat.div (GoFloat.of_int (Responses h))
                                 (GoFloat.of_int dur)) in
        let '(t3, clk) := now clk in
        (set_lastRPS h t3, clk)
      else (h, clk)
    else (h, clk) in
  let status :=
    if GoFloat.gt0 (rps h) then status +:+ ", " +:+ Fmt.f0 (rps h) +:+ " req/s"
    else status in
  let status :=
    if 0 <? Count h then
      let todo := GoInt.sub (Count h) (Responses h) in
      let status := status +:+ ", " +:+ Fmt.d todo +:+ " todo" in
      if GoFloat.gt0 (rps h) then
        let rem := GoFloat.div (GoFloat.of_int todo) (rps h) in
        status +:+ ", " +:+ formatSeconds rem +:+ " remaining"
      else status
    else status in
  let status :=
    if String.eqb current "" then status
    else status +:+ ", current: " +:+ current in
  let res := res ++ [status] in
  let res := res ++ map code_line (map_to_list (StatusCodes h)) in
  (take 2 res ++ sort_strings (drop 2 res), h, clk).

(** *** The reporting loop *)

(** [stats.Responses++] and the count of the error or of the status code.
    A response with neither an error nor an HTTP response makes the read
    of [response.HTTPResponse.StatusCode] dereference a nil pointer: the
    run panics, which is [None]. *)
Definition count_response (stats : HTTPStats) (response : Response)
  : option HTTPStats :=
  let responses := GoInt.add (Responses stats) 1 in
  match Error response with
  | Some _ =>
      Some {| Start := Start stats; StatusCodes := StatusCodes stats;
              Errors := GoInt.add (Errors stats) 1; Responses := responses;
              Count := Count stats; lastRPS := lastRPS stats;
              rps := rps stats |}
  | None =>
      match HTTPResponse response with
      | Some resp =>
          let codes := StatusCodes stats in
          let n := default 0 (codes !! StatusCode resp) in
          Some {| Start := Start stats;
                  StatusCodes := <[StatusCode resp := GoInt.add n 1]> codes;
                  Errors := Errors stats; Responses := responses;
                  Count := Count stats; lastRPS := lastRPS stats;
                  rps := rps stats |}
      | None => None
      end
  end.

Definition set_Count (stats : HTTPStats) (c : Z) : HTTPStats :=
  {| Start := Start stats; StatusCodes := StatusCodes stats;
     Errors := Errors stats; Responses := Responses stats; Count := c;
     lastRPS := lastRPS stats; rps := rps stats |}.

(** The loop over the filters: the first filter that rejects ends it. *)
Fixpoint print_allowed (filters : list ResponseFilter) (response : Response)
  : bool :=
  match filters with
  | [] => true
  | f :: filters' => if f response then false else print_allowed filters' response
  end.

(** The header line:
    [Sprintf("%7s %8s %8s   %-8s %s\n", "status", "header", "body", "value", "extract")]. *)
Definition header_text : string :=
  Fmt.s_right 7 "status" +:+ " " +:+ Fmt.s_right 8 "header" +:+ " " +:+
  Fmt.s_right 8 "body" +:+ "   " +:+ Fmt.s_left 8 "value" +:+ " " +:+
  "extract" +:+ Fmt.nl.

(** [Sprintf("processed %d HTTP requests in %v\n", n, t)] *)
Definition processed_text (n : Z) (t : string) : string :=
  "processed " +:+ Fmt.d n +:+ " HTTP requests in " +:+ t +:+ Fmt.nl.

(** The statistics at the start of a run: [Start] is set, every other
    field has its zero value. *)
Definition initial_stats (start : Z) : HTTPStats :=
  {| Start := start; StatusCodes := ∅; Errors := 0; Responses := 0;
     Count := 0; lastRPS := zeroTime; rps := GoFloat.zero |}.

Section Display.

Context {T : Type} `{Terminal T}.

(** The reporter: its terminal is threaded through the run, its filters
    are fixed.  [render] is [%v] of a [Response], which belongs to the
    type [Response]. *)
Variable filters : list ResponseFilter.
Variable render : Response -> string.

(** What one run of the loop body works on. *)
Record run_state := { stats : HTTPStats; term : T; clock : Clock }.

(** One iteration, for the response received from [ch] and for what the
    [select] finds on [countChannel]: a value, or nothing ready. *)
Definition iteration (st : run_state) (input : Response * option Z)
  : option run_state :=
  let '(response, c) := input in
  let stats := match c with
               | Some c => set_Count (stats st) c
               | None => stats st
               end in
  match count_response stats response with
  | None => None
  | Some stats =>
      let term :=
        if print_allowed filters response
        then Printf (render response +:+ Fmt.nl) (term st)
        else term st in
      let '(res, stats, clock) := Report stats (clock st) (Item response) in
      Some {| stats := stats; term := SetStatus res term; clock := clock |}
  end.

(** [for response := range ch], for a channel that delivers [inputs] and
    is closed. *)
Fixpoint loop (st : run_state) (inputs : list (Response * option Z))
  : option run_state :=
  match inputs with
  | [] => Some st
  | input :: inputs' =>
      match iteration st input with
      | Some st' => loop st' inputs'
      | None => None
      end
  end.

(** The lines after the loop. *)
Definition closing (st : run_state) : run_state :=
  let term := Print Fmt.nl (term st) in
  let '(t, clock) := now (clock st) in
  let elapsed := formatSeconds (Seconds (Since t (Start (stats st)))) in
  let term := Printf (processed_text (Responses (stats st)) elapsed) term in
  let '(res, stats, clock) := Report (stats st) clock "" in
  let term := fold_left (fun term line => Print line term) (drop 1 res) term in
  {| stats := stats; term := term; clock := clock |}.

(** [(r *Reporter) Display], the function it returns, run on a terminal
    and a clock. *)
Definition Display (inputs : list (Response * option Z)) (term : T)
    (clock : Clock) : option run_state :=
  let term := Printf header_text term in
  let '(start, clock) := now clock in
  let stats := initial_stats start in
  match loop {| stats := stats; term := term; clock := clock |} inputs with
  | Some st => Some (closing st)
  | None => None
  end.

End Display.

Arguments run_state : clear implicits.
Arguments Build_run_state {T}.
Arguments stats {T}.
Arguments term {T}.
Arguments clock {T}.

(** ** The specification's vocabulary *)

(** The contract on a result: it carries an error or a response. *)
Definition has_outcome (r : Response) : bool :=
  match Error r, HTTPResponse r with
  | None, None => false
  | _, _ => true
  end.

(** Whether a result carries an error. *)
Definition is_error (r : Response) : bool :=
  match Error r with
  | Some _ => true
  | None => false
  end.

(** The sum of the values of the histogram. *)
Definition sum_counts (codes : gmap Z Z) : Z :=
  map_fold (fun _ count acc => count + acc) 0 codes.

(** The counters after [n] results of which [e] carried an error, when
    no counter has wrapped around. *)
Definition counted (n e : Z) (h : HTTPStats) : Prop :=
  Responses h = n /\ Errors h = e /\ 0 <= e /\
  map_Forall (fun _ v => 0 <= v) (StatusCodes h) /\
  sum_counts (StatusCodes h) + e = n.

(** The parts of [Report].  First the rate: it is computed again when
    the whole seconds since [Start] are positive and more than a second
    has passed since [lastRPS]. *)
Definition update_rate (h : HTTPStats) (clk : Clock) : HTTPStats * Clock :=
  let '(t1, clk) := now clk in
  let dur := Z.quot (Since t1 (Start h)) Second in
  if 0 <? dur then
    let '(t2, clk) := now clk in
    if Second <? Since t2 (lastRPS h) then
      let r := GoFloat.div (GoFloat.of_int (Responses h)) (GoFloat.of_int dur) in
      let '(t3, clk) := now clk in
      (set_lastRPS (set_rps h r) t3, clk)
    else (h, clk)
  else (h, clk).

(** Then the summary line, from the statistics with that rate. *)
Definition status_line (h : HTTPStats) (current : string) : string :=
  let status := Fmt.d (Responses h) +:+ " requests" in
  let status :=
    if GoFloat.gt0 (rps h) then status +:+ ", " +:+ Fmt.f0 (rps h) +:+ " req/s"
    else status in
  let status :=
    if 0 <? Count h then
      let todo := GoInt.sub (Count h) (Responses h) in
      let status := status +:+ ", " +:+ Fmt.d todo +:+ " todo" in
      if GoFloat.gt0 (rps h) then
        let rem := GoFloat.div (GoFloat.of_int todo) (rps h) in
        status +:+ ", " +:+ formatSeconds rem +:+ " remaining"
      else status
    else status in
  if String.eqb current "" then status
  else status +:+ ", current: " +:+ current.

(** The status-code lines of a report. *)
Definition code_lines (h : HTTPStats) : list string :=
  sort_strings (code_line <$> map_to_list (StatusCodes h)).

(** Whether a message contains a percent sign. *)
Fixpoint has_percent (msg : string) : bool :=
  match msg with
  | EmptyString => false
  | String c msg' => Ascii.eqb c "%" || has_percent msg'
  end.

(** The calls that append to the transcript. *)
Definition is_append (e : event) : bool :=
  match e with
  | EvPrintf _ | EvPrint _ => true
  | EvSetStatus _ => false
  end.

(** What one iteration asks of the terminal: the line of the response
    unless a filter rejects it, then the status [report]. *)
Definition iteration_events (filters : list ResponseFilter)
    (render : Response -> string) (response : Response)
    (report : list string) : list event :=
  (if print_allowed filters response
   then [EvPrintf (render response +:+ Fmt.nl)] else []) ++
  [EvSetStatus report].

(** The calls of the iterations for [responses], given the status
    [reports] they set. *)
Definition loop_events (filters : list ResponseFilter)
    (render : Response -> string) (responses : list Response)
    (reports : list (list string)) : list event :=
  concat (zip_with (iteration_events filters render) responses reports).

(** The number of results that carry an error. *)
Definition error_count (responses : list Response) : Z :=
  Z.of_nat (length (List.filter is_error responses)).

(** The decimal digit [n], for [n] below ten. *)
Definition digit_char (n : Z) : ascii := ascii_of_N (Z.to_N (48 + n)).

(** A number below one hundred, in exactly two digits. *)
Definition two_digit (n : Z) : string :=
  String (digit_char (n / 10)) (String (digit_char (n mod 10)) "").

(** The duration of [n] whole seconds as the specification words it:
    hours, minutes in two digits and seconds in two digits when there are
    hours, minutes and seconds in two digits otherwise. *)
Definition duration_text (n : Z) : string :=
  let hours := n / 3600 in
  let minutes := (n / 60) mod 60 in
  let seconds := n mod 60 in
  if 0 <? hours then
    Fmt.d hours +:+ "h" +:+ two_digit minutes +:+ "m" +:+ two_digit seconds +:+ "s"
  else
    Fmt.d minutes +:+ "m" +:+ two_digit seconds +:+ "s".

(** ** Sample states and inputs *)

(** A clock that stands still at [t], and one that starts at [t] and
    advances by [step] at every reading. *)
Definition clock_at (t : Z) : Clock := {| reading := fun _ => t; tick := 0 |}.

Definition clock_from (t step : Z) : Clock :=
  {| reading := fun n => t + Z.of_nat n * step; tick := 0 |}.

(** Thirty responses counted, all with status 200; the rate was computed
    one second after the start, when there were ten. *)
Definition thirty_responses : HTTPStats :=
  {| Start := 0; StatusCodes := {[ 200 := 30 ]}; Errors := 0; Responses := 30;
     Count := 0; lastRPS := 1000000000; rps := GoFloat.of_int 10 |}.

(** One response with status 99 and one with status 100. *)
Definition codes_99_100 : HTTPStats :=
  {| Start := 0; StatusCodes := <[99 := 1]> (<[100 := 1]> ∅); Errors := 0;
     Responses := 2; Count := 0; lastRPS := 0; rps := GoFloat.zero |}.

(** Results, a way to render them, and what the two channels deliver in a
    short session: three responses, a failed probe, and an expected total
    of five that arrives with the first result. *)
Definition response_of (item : string) (status : Z) : Response :=
  {| Item := item; Error := None;
     HTTPResponse := Some {| StatusCode := status |} |}.

Definition failure_of (item : string) : Response :=
  {| Item := item; Error := Some "connection refused"; HTTPResponse := None |}.

Definition render_item (r : Response) : string := "<" +:+ Item r +:+ ">".

Definition session : list (Response * option Z) :=
  [(response_of "a" 200, Some 5); (response_of "b" 200, None);
   (failure_of "c", None); (response_of "d" 404, None)].

(** Filters that reject everything and nothing. *)
Definition reject_all : ResponseFilter := fun _ => true.
Definition reject_none : ResponseFilter := fun _ => false.

(** A log terminal on which nothing was printed yet. *)
Definition new_LogTerminal : LogTerminal :=
  {| Terminal_printed := []; Terminal_status := []; w := "" |}.

(** ** More vocabulary, for the properties beyond the claims *)

(** Whether a result is counted under the status [k]: it carries no error
    and its response has that status. *)
Definition counts_as (k : Z) (r : Response) : bool :=
  match Error r, HTTPResponse r with
  | None, Some resp => StatusCode resp =? k
  | _, _ => false
  end.

(** The number of results counted under the status [k]. *)
Definition status_count (k : Z) (responses : list Response) : Z :=
  Z.of_nat (length (List.filter (counts_as k) responses)).

(** The expected total last found on [countChannel], [0] when the channel
    never had one ready. *)
Definition last_count (inputs : list (Response * option Z)) : Z :=
  default 0 (last (omap snd inputs)).

(** The histogram holds, for every status, the number of results counted
    under it, and no entry for a status that none had. *)
Definition histogram_of (responses : list Response) (codes : gmap Z Z) : Prop :=
  forall k,
    codes !! k =
    if status_count k responses =? 0 then None
    else Some (status_count k responses).

(** The line [LogTerminal.Print] makes of a message. *)
Definition with_newline (msg : string) : string :=
  if HasSuffix_nl msg then msg else msg +:+ Fmt.nl.

(** The line a call appends to the transcript of a log terminal, and the
    status a call sets. *)
Definition appended_line (e : event) : option string :=
  match e with
  | EvPrintf text | EvPrint text => Some (with_newline text)
  | EvSetStatus _ => None
  end.

Definition status_set (e : event) : option (list string) :=
  match e with
  | EvSetStatus lines => Some lines
  | EvPrintf _ | EvPrint _ => None
  end.

Definition concat_strings (l : list string) : string :=
  foldr String.append "" l.

(** A log terminal after the calls [events]: the lines are printed on the
    embedded terminal and written, as format strings, to the sink; the
    statuses are set on the embedded terminal only. *)
Definition after_calls (lt : LogTerminal) (events : list event) : LogTerminal :=
  {| Terminal_printed := Terminal_printed lt ++ omap appended_line events;
     Terminal_status := Terminal_status lt ++ omap status_set events;
     w := w lt +:+ concat_strings (Fmt.Sprintf0 <$> omap appended_line events) |}.

(** A call that appends no line with a percent sign. *)
Definition plain_call (e : event) : Prop :=
  match appended_line e with
  | Some line => has_percent line = false
  | None => True
  end.

(** The status set after a result: the report, under the label of the
    result, of the statistics [h]. *)
Definition report_of (h : HTTPStats) (input : Response * option Z)
  : list string :=
  "" :: status_line h (Item input.1) :: code_lines h.

(** The text of a [Printf] call. *)
Definition printf_text (e : event) : option string :=
  match e with
  | EvPrintf text => Some text
  | EvPrint _ | EvSetStatus _ => None
  end.

(** * Part II: properties *)

(** ** Integers and floats *)

Lemma wrap_in_range z : GoInt.in_range (GoInt.wrap z).
Proof.
  unfold GoInt.in_range, GoInt.wrap, GoInt.min_int, GoInt.max_int.
  pose proof (Z.mod_pos_bound (z + 2 ^ 63) (2 ^ 64)). lia.
Qed.

Lemma wrap_id z : GoInt.in_range z -> GoInt.wrap z = z.
Proof.
  unfold GoInt.in_range, GoInt.wrap, GoInt.min_int, GoInt.max_int. intros Hz.
  rewrite Z.mod_small; lia.
Qed.

Lemma wrap_mod z : GoInt.wrap z mod 2 ^ 64 = z mod 2 ^ 64.
Proof.
  unfold GoInt.wrap.
  rewrite Zminus_mod, Zmod_mod, <- Zminus_mod. f_equal. lia.
Qed.

Lemma pow2_pos_Z (k : positive) : Zpos (2 ^ k)%positive = 2 ^ Zpos k.
Proof. now rewrite Pos2Z.inj_pow. Qed.

(** On a float that is not below zero, the integer part is the floor of
    the number it denotes. *)
Lemma trunc_floor x :
  GoFloat.nonneg x = true -> GoFloat.trunc x = Some (Qfloor (GoFloat.value x)).
Proof.
  destruct x as [s| | |s m e]; simpl; try discriminate.
  - reflexivity.
  - destruct s; [discriminate|]. intros _.
    destruct e as [|p|k]; simpl cond_Zopp.
    + now rewrite Qfloor_Z.
    + now rewrite Qfloor_Z.
    + unfold Qfloor. rewrite pow2_pos_Z. f_equal.
      apply Z.quot_div_nonneg; [lia|]. apply Z.pow_pos_nonneg; lia.
Qed.

Lemma value_nonneg x : GoFloat.nonneg x = true -> (0 <= GoFloat.value x)%Q.
Proof.
  destruct x as [s| | |s m e]; simpl; try discriminate.
  destruct s; [discriminate|]. intros _.
  destruct e as [|p|k]; simpl cond_Zopp.
  - change 0%Q with (inject_Z 0). rewrite <- Zle_Qle. lia.
  - change 0%Q with (inject_Z 0). rewrite <- Zle_Qle.
    apply Z.mul_nonneg_nonneg; [lia|]. apply Z.pow_nonneg; lia.
  - unfold Qle. simpl. lia.
Qed.

(** [int(x)] of a float that is not below zero: the floor of its value
    when it fits in an [int]. *)
Lemma to_int_floor x :
  GoFloat.nonneg x = true ->
  Qfloor (GoFloat.value x) <= GoInt.max_int ->
  GoFloat.to_int x = Qfloor (GoFloat.value x).
Proof.
  intros Hx Hmax. unfold GoFloat.to_int. rewrite (trunc_floor x Hx).
  pose proof (value_nonneg x Hx) as H0.
  apply Qfloor_resp_le in H0. change (Qfloor 0) with 0 in H0.
  destruct (Z.leb_spec GoInt.min_int (Qfloor (GoFloat.value x))) as [_|Hlt];
    [|unfold GoInt.min_int in Hlt; lia].
  destruct (Z.leb_spec (Qfloor (GoFloat.value x)) GoInt.max_int); [reflexivity|lia].
Qed.

(** Floats that are not below zero and have the same floor convert to the
    same [int], also when it does not fit. *)
Lemma to_int_same_floor x y :
  GoFloat.nonneg x = true -> GoFloat.nonneg y = true ->
  Qfloor (GoFloat.value x) = Qfloor (GoFloat.value y) ->
  GoFloat.to_int x = GoFloat.to_int y.
Proof.
  intros Hx Hy E. unfold GoFloat.to_int.
  now rewrite (trunc_floor x Hx), (trunc_floor y Hy), E.
Qed.

(** The number of binary digits of a positive number. *)
Lemma digits2_pos_bounds (n : positive) :
  2 ^ (Zpos (digits2_pos n) - 1) <= Zpos n < 2 ^ Zpos (digits2_pos n).
Proof.
  induction n as [n IH|n IH|]; cbn [digits2_pos].
  - rewrite Pos2Z.inj_succ.
    replace (Z.succ (Zpos (digits2_pos n)) - 1)
      with (Z.succ (Zpos (digits2_pos n) - 1)) by lia.
    rewrite !Z.pow_succ_r by lia. lia.
  - rewrite Pos2Z.inj_succ.
    replace (Z.succ (Zpos (digits2_pos n)) - 1)
      with (Z.succ (Zpos (digits2_pos n) - 1)) by lia.
    rewrite !Z.pow_succ_r by lia. lia.
  - simpl. lia.
Qed.

Lemma digits2_pos_le (n : positive) k :
  0 <= k -> Zpos n < 2 ^ k -> Zpos (digits2_pos n) <= k.
Proof.
  intros Hk Hn. pose proof (digits2_pos_bounds n) as [Hlo _].
  assert (Hlt : 2 ^ (Zpos (digits2_pos n) - 1) < 2 ^ k) by lia.
  apply Z.pow_lt_mono_r_iff in Hlt; lia.
Qed.

Lemma iter_xO_mul (n p : positive) : Pos.iter xO n p = (n * 2 ^ p)%positive.
Proof.
  induction p as [|p IH] using Pos.peano_ind.
  - simpl. lia.
  - rewrite Pos.iter_succ, IH, Pos.pow_succ_r. lia.
Qed.

Lemma digits2_pos_iter_xO (n p : positive) :
  digits2_pos (Pos.iter xO n p) = (digits2_pos n + p)%positive.
Proof.
  induction p as [|p IH] using Pos.peano_ind.
  - simpl. lia.
  - rewrite Pos.iter_succ. cbn [digits2_pos]. rewrite IH. lia.
Qed.

(** Nothing is rounded off a mantissa of 53 digits. *)
Lemma binary_round_aux_exact sx m e :
  Zpos (digits2_pos m) = 53 -> -1074 <= e <= 971 ->
  binary_round_aux GoFloat.prec GoFloat.emax sx (Zpos m) e loc_Exact =
  S754_finite sx m e.
Proof.
  intros Hd He.
  assert (Hf : fexp GoFloat.prec GoFloat.emax (53 + e) - e = 0).
  { unfold fexp, emin, GoFloat.prec, GoFloat.emax. lia. }
  unfold binary_round_aux, shr_fexp. cbn [Zdigits2]. rewrite Hd, Hf.
  cbn [shr shr_record_of_loc shr_m loc_of_shr_record round_nearest_even Zdigits2].
  rewrite Hd, Hf. cbn [shr shr_m].
  unfold GoFloat.emax, GoFloat.prec.
  destruct (Z.leb_spec e (1024 - 53)); [reflexivity|lia].
Qed.

Lemma binary_round_exact sx (n : positive) :
  Zpos n < 2 ^ 53 ->
  exists m e,
    binary_round GoFloat.prec GoFloat.emax sx n 0 = S754_finite sx m e /\
    (GoFloat.value (S754_finite sx m e) == inject_Z (cond_Zopp sx (Zpos n)))%Q.
Proof.
  intros Hn.
  pose proof (digits2_pos_le n 53 ltac:(lia) Hn) as Hd.
  unfold binary_round.
  assert (Hf : fexp GoFloat.prec GoFloat.emax (Zpos (digits2_pos n) + 0) =
               Zpos (digits2_pos n) - 53).
  { unfold fexp, emin, GoFloat.prec, GoFloat.emax. lia. }
  rewrite Hf. unfold shl_align.
  destruct (Zpos (digits2_pos n) - 53 - 0) as [|p|p] eqn:Hp; try lia.
  - rewrite binary_round_aux_exact by lia.
    exists n, 0. split; [reflexivity|]. simpl. rewrite Z.mul_1_r. reflexivity.
  - rewrite binary_round_aux_exact.
    + exists (Pos.iter xO n p), (Zpos (digits2_pos n) - 53).
      split; [reflexivity|].
      replace (Zpos (digits2_pos n) - 53) with (Zneg p) by lia.
      simpl. rewrite iter_xO_mul. unfold Qeq.
      destruct sx; simpl; lia.
    + rewrite digits2_pos_iter_xO. lia.
    + lia.
Qed.

(** [float64(n)] is exact below [2^53]. *)
Lemma of_int_exact n :
  - 2 ^ 53 < n < 2 ^ 53 ->
  (GoFloat.value (GoFloat.of_int n) == inject_Z n)%Q /\
  (0 <= n -> GoFloat.nonneg (GoFloat.of_int n) = true).
Proof.
  intros Hn. unfold GoFloat.of_int, binary_normalize.
  destruct n as [|n|n].
  - split; reflexivity.
  - destruct (binary_round_exact false n ltac:(lia)) as (m & e & -> & Hv).
    split; [exact Hv|reflexivity].
  - destruct (binary_round_exact true n ltac:(lia)) as (m & e & -> & Hv).
    split; [exact Hv|lia].
Qed.

(** The mantissa of a float of the format has at most 53 digits. *)
Lemma valid_mantissa s m e :
  GoFloat.valid (S754_finite s m e) = true -> Zpos m < 2 ^ 53.
Proof.
  unfold GoFloat.valid, valid_binary, bounded, canonical_mantissa.
  intros Hv. apply andb_prop in Hv. destruct Hv as [Hc _].
  apply Z.eqb_eq in Hc.
  unfold fexp, emin, GoFloat.prec, GoFloat.emax in Hc.
  pose proof (digits2_pos_bounds m) as [_ Hhi].
  assert (Hd : Zpos (digits2_pos m) <= 53) by lia.
  apply (Z.lt_le_trans _ _ _ Hhi), Z.pow_le_mono_r; lia.
Qed.

(** [GoFloat.floor] is the floor, on the floats of the format that are
    not below zero. *)
Lemma floor_value x :
  GoFloat.valid x = true -> GoFloat.nonneg x = true ->
  GoFloat.nonneg (GoFloat.floor x) = true /\
  (GoFloat.value (GoFloat.floor x) == inject_Z (Qfloor (GoFloat.value x)))%Q.
Proof.
  intros Hv Hx. destruct x as [s| | |s m e]; try discriminate.
  - split; [exact Hx|reflexivity].
  - destruct s; [discriminate|].
    destruct e as [|p|k]; cbn [GoFloat.floor GoFloat.value cond_Zopp].
    + split; [reflexivity|]. now rewrite Qfloor_Z.
    + split; [reflexivity|]. now rewrite Qfloor_Z.
    + pose proof (valid_mantissa _ _ _ Hv) as Hm.
      unfold Qfloor. rewrite pow2_pos_Z.
      assert (Hp : 0 < 2 ^ Zpos k) by (apply Z.pow_pos_nonneg; lia).
      assert (Hq : 0 <= Zpos m / 2 ^ Zpos k <= Zpos m).
      { split; [apply Z.div_pos; lia|].
        apply Z.div_le_upper_bound; [lia|]. nia. }
      destruct (of_int_exact (Zpos m / 2 ^ Zpos k) ltac:(lia)) as [Hval Hnn].
      split; [apply Hnn; lia|exact Hval].
Qed.

(** ** The duration formatter *)

Lemma d0_two_digit k : 0 <= k < 100 -> Fmt.d0 2 k = two_digit k.
Proof.
  intros Hk.
  assert (Hall : forallb (fun i => String.eqb (Fmt.d0 2 (Z.of_nat i))
                                     (two_digit (Z.of_nat i)))
                         (seq 0 100) = true) by (vm_compute; reflexivity).
  rewrite forallb_forall in Hall.
  specialize (Hall (Z.to_nat k)).
  rewrite Z2Nat.id in Hall by lia.
  apply String.eqb_eq, Hall, in_seq. lia.
Qed.

(** [formatSeconds] on a float whose integer part is [n]. *)
Lemma formatSeconds_to_int x n :
  GoFloat.to_int x = n -> 0 <= n <= GoInt.max_int ->
  formatSeconds x = duration_text n.
Proof.
  intros Hx Hn. unfold GoInt.max_int in Hn.
  unfold formatSeconds, duration_text. rewrite Hx.
  unfold GoInt.quot, GoInt.sub, GoInt.mul.
  rewrite (Z.quot_div_nonneg n 3600) by lia.
  assert (Hh : 0 <= n / 3600 <= n) by (split; [apply Z.div_pos|apply Z.div_le_upper_bound]; lia).
  rewrite (wrap_id (n / 3600))
    by (unfold GoInt.in_range, GoInt.min_int, GoInt.max_int; lia).
  assert (Hr : n - n / 3600 * 3600 = n mod 3600) by (rewrite Z.mod_eq; lia).
  pose proof (Z.mod_pos_bound n 3600 ltac:(lia)) as Hm.
  rewrite (wrap_id (n / 3600 * 3600))
    by (unfold GoInt.in_range, GoInt.min_int, GoInt.max_int; lia).
  rewrite Hr.
  rewrite (wrap_id (n mod 3600))
    by (unfold GoInt.in_range, GoInt.min_int, GoInt.max_int; lia).
  rewrite (Z.quot_div_nonneg (n mod 3600) 60) by lia.
  assert (Hmin : n mod 3600 / 60 = (n / 60) mod 60).
  { change 3600 with (60 * 60). rewrite Z.rem_mul_r by lia.
    rewrite Z.mul_comm, Z.div_add by lia.
    rewrite (Z.div_small (n mod 60) 60) by (apply Z.mod_pos_bound; lia). lia. }
  assert (Hsec : n mod 3600 - n mod 3600 / 60 * 60 = n mod 60).
  { rewrite <- (Z.mul_comm 60), <- Z.mod_eq by lia.
    change 3600 with (60 * 60). rewrite Z.rem_mul_r by lia.
    rewrite Z.mul_comm, Z.mod_add by lia. apply Z.mod_mod. lia. }
  pose proof (Z.mod_pos_bound (n / 60) 60 ltac:(lia)) as Hm60.
  pose proof (Z.mod_pos_bound n 60 ltac:(lia)) as Hs60.
  rewrite Hmin.
  rewrite (wrap_id ((n / 60) mod 60))
    by (unfold GoInt.in_range, GoInt.min_int, GoInt.max_int; lia).
  rewrite (wrap_id ((n / 60) mod 60 * 60))
    by (unfold GoInt.in_range, GoInt.min_int, GoInt.max_int; lia).
  rewrite <- Hmin, Hsec, Hmin.
  rewrite (wrap_id (n mod 60))
    by (unfold GoInt.in_range, GoInt.min_int, GoInt.max_int; lia).
  rewrite !d0_two_digit by lia. reflexivity.
Qed.

(** The integer part of a float that denotes the integer [n]. *)
Lemma to_int_whole x n :
  GoFloat.nonneg x = true -> (GoFloat.value x == inject_Z n)%Q ->
  n <= GoInt.max_int -> GoFloat.to_int x = n /\ 0 <= n.
Proof.
  intros Hx Hv Hn.
  assert (Hf : Qfloor (GoFloat.value x) = n) by (rewrite Hv; apply Qfloor_Z).
  split.
  - rewrite to_int_floor; [exact Hf|exact Hx|lia].
  - pose proof (value_nonneg x Hx) as H0. rewrite Hv in H0.
    change 0%Q with (inject_Z 0) in H0. now rewrite <- Zle_Qle in H0.
Qed.

(** C7. The duration formatter renders a float that denotes a
    non-negative whole number [n] of seconds (that fits in an [int]) as
    hours, two-digit minutes and two-digit seconds when there are hours,
    and as minutes and two-digit seconds otherwise; 0, 65 and 3661 seconds
    give "0m00s", "1m05s" and "1h01m01s". *)
Theorem formatSeconds_whole_seconds :
  (forall x n,
      GoFloat.nonneg x = true -> (GoFloat.value x == inject_Z n)%Q ->
      n <= GoInt.max_int ->
      formatSeconds x = duration_text n) /\
  (forall n,
      0 <= n < 2 ^ 53 -> formatSeconds (GoFloat.of_int n) = duration_text n) /\
  formatSeconds (GoFloat.of_int 0) = "0m00s" /\
  formatSeconds (GoFloat.of_int 65) = "1m05s" /\
  formatSeconds (GoFloat.of_int 3661) = "1h01m01s".
Proof.
  assert (Hgen : forall x n,
             GoFloat.nonneg x = true -> (GoFloat.value x == inject_Z n)%Q ->
             n <= GoInt.max_int -> formatSeconds x = duration_text n).
  { intros x n Hx Hv Hn.
    destruct (to_int_whole x n Hx Hv Hn) as [Hi H0].
    apply formatSeconds_to_int; [exact Hi|lia]. }
  split; [exact Hgen|]. split; [|repeat split; vm_compute; reflexivity].
  intros n Hn. destruct (of_int_exact n ltac:(lia)) as [Hv Hnn].
  apply Hgen; [apply Hnn; lia|exact Hv|unfold GoInt.max_int; lia].
Qed.

Lemma formatSeconds_whole_seconds_witness :
  GoFloat.nonneg (GoFloat.of_int 7325) = true /\
  (GoFloat.value (GoFloat.of_int 7325) == inject_Z 7325)%Q /\
  7325 <= GoInt.max_int /\
  formatSeconds (GoFloat.of_int 7325) = "2h02m05s".
Proof.
  assert (Hx : GoFloat.nonneg (GoFloat.of_int 7325) = true) by reflexivity.
  assert (Hv : (GoFloat.value (GoFloat.of_int 7325) == inject_Z 7325)%Q)
    by (vm_compute; reflexivity).
  assert (Hn : 7325 <= GoInt.max_int) by (vm_compute; discriminate).
  exact (conj Hx (conj Hv (conj Hn
           (proj1 formatSeconds_whole_seconds _ 7325 Hx Hv Hn)))).
Defined.

Lemma formatSeconds_same_int x y :
  GoFloat.to_int x = GoFloat.to_int y -> formatSeconds x = formatSeconds y.
Proof. intros E. unfold formatSeconds. now rewrite E. Qed.

Lemma Qfloor_between (v : Q) (n : Z) :
  (inject_Z n <= v)%Q -> (v < inject_Z (n + 1))%Q -> Qfloor v = n.
Proof.
  intros Hlo Hhi.
  apply Qfloor_resp_le in Hlo. rewrite Qfloor_Z in Hlo.
  pose proof (Qfloor_le v) as Hle.
  pose proof (Qle_lt_trans _ _ _ Hle Hhi) as Hlt.
  rewrite <- Zlt_Qlt in Hlt. lia.
Qed.

(** C10. The duration formatter discards the fraction of its input: a
    float [x] of the format that is not below zero is rendered as its
    floor, and as any float that denotes the floor of [x]; every input
    from 65 up to, but not including, 66 is rendered "1m05s". *)
Theorem formatSeconds_discards_fraction :
  (forall x,
      GoFloat.valid x = true -> GoFloat.nonneg x = true ->
      (GoFloat.value (GoFloat.floor x) ==
         inject_Z (Qfloor (GoFloat.value x)))%Q /\
      formatSeconds x = formatSeconds (GoFloat.floor x)) /\
  (forall x y,
      GoFloat.nonneg x = true -> GoFloat.nonneg y = true ->
      (GoFloat.value y == inject_Z (Qfloor (GoFloat.value x)))%Q ->
      formatSeconds x = formatSeconds y) /\
  (forall x,
      GoFloat.nonneg x = true ->
      (inject_Z 65 <= GoFloat.value x)%Q -> (GoFloat.value x < inject_Z 66)%Q ->
      formatSeconds x = "1m05s").
Proof.
  assert (Hany : forall x y,
             GoFloat.nonneg x = true -> GoFloat.nonneg y = true ->
             (GoFloat.value y == inject_Z (Qfloor (GoFloat.value x)))%Q ->
             formatSeconds x = formatSeconds y).
  { intros x y Hx Hy Hv. apply formatSeconds_same_int, to_int_same_floor; trivial.
    rewrite Hv. symmetry. apply Qfloor_Z. }
  split; [|split; [exact Hany|]].
  - intros x Hv Hx. destruct (floor_value x Hv Hx) as [Hnn Hval].
    split; [exact Hval|]. apply Hany; assumption.
  - intros x Hx Hlo Hhi.
    assert (Hf : Qfloor (GoFloat.value x) = 65) by (apply Qfloor_between; assumption).
    rewrite (formatSeconds_to_int x 65).
    + reflexivity.
    + rewrite to_int_floor; [exact Hf|exact Hx|]. rewrite Hf. discriminate.
    + split; discriminate.
Qed.

Lemma formatSeconds_discards_fraction_witness :
  (GoFloat.value (GoFloat.div (GoFloat.of_int 131) (GoFloat.of_int 2)) ==
     131 # 2)%Q /\
  ((GoFloat.value
      (GoFloat.floor (GoFloat.div (GoFloat.of_int 131) (GoFloat.of_int 2))) ==
      inject_Z
        (Qfloor
           (GoFloat.value (GoFloat.div (GoFloat.of_int 131) (GoFloat.of_int 2)))))%Q /\
   formatSeconds (GoFloat.div (GoFloat.of_int 131) (GoFloat.of_int 2)) =
   formatSeconds
     (GoFloat.floor (GoFloat.div (GoFloat.of_int 131) (GoFloat.of_int 2)))) /\
  formatSeconds (GoFloat.div (GoFloat.of_int 131) (GoFloat.of_int 2)) = "1m05s".
Proof.
  assert (Hv : GoFloat.valid
                 (GoFloat.div (GoFloat.of_int 131) (GoFloat.of_int 2)) = true)
    by (vm_compute; reflexivity).
  assert (Hx : GoFloat.nonneg
                 (GoFloat.div (GoFloat.of_int 131) (GoFloat.of_int 2)) = true)
    by (vm_compute; reflexivity).
  assert (Hlo : (inject_Z 65 <=
                 GoFloat.value
                   (GoFloat.div (GoFloat.of_int 131) (GoFloat.of_int 2)))%Q)
    by (vm_compute; discriminate).
  assert (Hhi : (GoFloat.value
                   (GoFloat.div (GoFloat.of_int 131) (GoFloat.of_int 2)) <
                 inject_Z 66)%Q)
    by (vm_compute; reflexivity).
  split; [vm_compute; reflexivity|].
  exact (conj (proj1 formatSeconds_discards_fraction _ Hv Hx)
              (proj2 (proj2 formatSeconds_discards_fraction) _ Hx Hlo Hhi)).
Defined.

(** ** The report *)

(** [Report] in terms of its parts. *)
Lemma Report_eq h clk current :
  Report h clk current =
  ("" :: status_line (update_rate h clk).1 current ::
      code_lines (update_rate h clk).1,
   (update_rate h clk).1, (update_rate h clk).2).
Proof.
  unfold Report, update_rate, status_line, code_lines.
  destruct (now clk) as [t1 clk1].
  destruct (0 <? Z.quot (Since t1 (Start h)) Second); [|reflexivity].
  destruct (now clk1) as [t2 clk2].
  destruct (Second <? Since t2 (lastRPS h)); [|reflexivity].
  destruct (now clk2) as [t3 clk3]. reflexivity.
Qed.

(** What [update_rate] may change. *)
Lemma update_rate_frame h clk :
  let h' := (update_rate h clk).1 in
  Start h' = Start h /\ StatusCodes h' = StatusCodes h /\
  Errors h' = Errors h /\ Responses h' = Responses h /\ Count h' = Count h.
Proof.
  unfold update_rate. simpl.
  destruct (0 <? _); [|tauto].
  destruct (Second <? _); simpl; tauto.
Qed.

(** C9. [Report] leaves [Start], [StatusCodes], [Errors], [Responses] and
    [Count] as they were, for every state, clock and label: it can only
    change [rps] and [lastRPS]. *)
Theorem Report_frame (h : HTTPStats) (clk : Clock) (current : string) :
  let h' := (Report h clk current).1.2 in
  Start h' = Start h /\ StatusCodes h' = StatusCodes h /\
  Errors h' = Errors h /\ Responses h' = Responses h /\ Count h' = Count h.
Proof. rewrite Report_eq. apply update_rate_frame. Qed.

(** The whole seconds of a duration are positive from one full second
    on. *)
Lemma whole_seconds_pos d : (0 <? Z.quot d Second) = (Second <=? d).
Proof.
  unfold Second.
  destruct (Z.leb_spec 1000000000 d) as [Hd|Hd].
  - apply Z.ltb_lt. rewrite Z.quot_div_nonneg by lia.
    apply Z.div_str_pos. lia.
  - apply Z.ltb_ge. destruct (Z.le_gt_cases 0 d) as [H0|H0].
    + rewrite Z.quot_small; lia.
    + rewrite <- (Z.opp_involutive d), Z.quot_opp_l by lia.
      pose proof (Z.quot_pos (- d) 1000000000). lia.
Qed.

(** The rate and its time stamp after [update_rate], by cases on the two
    elapsed times. *)
Lemma update_rate_cases h clk :
  let t1 := reading clk (tick clk) in
  let t2 := reading clk (S (tick clk)) in
  let t3 := reading clk (S (S (tick clk))) in
  let h' := (update_rate h clk).1 in
  if (Second <=? Since t1 (Start h)) && (Second <? Since t2 (lastRPS h)) then
    rps h' = GoFloat.div (GoFloat.of_int (Responses h))
                         (GoFloat.of_int (Z.quot (Since t1 (Start h)) Second)) /\
    lastRPS h' = t3
  else rps h' = rps h /\ lastRPS h' = lastRPS h.
Proof.
  unfold update_rate. simpl. rewrite whole_seconds_pos.
  destruct (Second <=? _); simpl; [|tauto].
  destruct (Second <? _); simpl; tauto.
Qed.

(** C2, as amended.  [Report] computes the rate again exactly when at
    least one full second has passed since [Start] and more than one
    second has passed since [lastRPS]; the new rate is [Responses] over the
    whole seconds since [Start], and [lastRPS] becomes the time of the
    update; otherwise both keep their values. *)
Theorem Report_rate (h : HTTPStats) (clk : Clock) (current : string) :
  let t1 := reading clk (tick clk) in
  let t2 := reading clk (S (tick clk)) in
  let t3 := reading clk (S (S (tick clk))) in
  let h' := (Report h clk current).1.2 in
  (Second <= Since t1 (Start h) /\ Second < Since t2 (lastRPS h) ->
   rps h' = GoFloat.div (GoFloat.of_int (Responses h))
                        (GoFloat.of_int (Since t1 (Start h) / Second)) /\
   lastRPS h' = t3) /\
  (~ (Second <= Since t1 (Start h) /\ Second < Since t2 (lastRPS h)) ->
   rps h' = rps h /\ lastRPS h' = lastRPS h).
Proof.
  intros t1 t2 t3 h'. subst h'. rewrite Report_eq. simpl.
  pose proof (update_rate_cases h clk) as Hc. simpl in Hc.
  fold t1 t2 t3 in Hc.
  destruct (Z.leb_spec Second (Since t1 (Start h))) as [H1|H1];
    destruct (Z.ltb_spec Second (Since t2 (lastRPS h))) as [H2|H2];
    simpl in Hc; split; intros Hcond; try lia; try exact Hc.
  rewrite <- Z.quot_div_nonneg; [exact Hc|unfold Second in *; lia..].
Qed.

Lemma Report_rate_witness :
  rps (Report thirty_responses (clock_at 3000000000) "").1.2 =
    GoFloat.div (GoFloat.of_int 30) (GoFloat.of_int 3) /\
  lastRPS (Report thirty_responses (clock_at 3000000000) "").1.2 = 3000000000.
Proof.
  refine (proj1 (Report_rate thirty_responses (clock_at 3000000000) "") _).
  vm_compute. split; [discriminate|reflexivity].
Defined.

(** C2, as stated, fails when exactly one second has passed since
    [lastRPS]: two seconds after the start and one full second after the
    last update, [Report] keeps the old rate and the old time stamp. *)
Lemma Report_rate_after_exactly_one_second :
  Second <= Since 2000000000 (Start thirty_responses) /\
  Second <= Since 2000000000 (lastRPS thirty_responses) /\
  rps (Report thirty_responses (clock_at 2000000000) "").1.2 = rps thirty_responses /\
  lastRPS (Report thirty_responses (clock_at 2000000000) "").1.2 =
    lastRPS thirty_responses /\
  rps (Report thirty_responses (clock_at 2000000000) "").1.2 <>
    GoFloat.div (GoFloat.of_int (Responses thirty_responses))
                (GoFloat.of_int (Since 2000000000 (Start thirty_responses) / Second)).
Proof.
  rewrite Report_eq. vm_compute. repeat split; discriminate.
Qed.

Lemma code_lines_sorted h : Sorted String.le (code_lines h).
Proof. apply Sorted_merge_sort; apply _. Qed.

Lemma code_lines_perm h :
  Permutation (code_lines h) (code_line <$> map_to_list (StatusCodes h)).
Proof. apply merge_sort_Permutation. Qed.

Lemma code_lines_length h : length (code_lines h) = size (StatusCodes h).
Proof.
  rewrite (Permutation_length (code_lines_perm h)).
  now rewrite length_fmap, length_map_to_list.
Qed.

Lemma code_lines_elem h line :
  line ∈ code_lines h <->
  exists code count,
    StatusCodes h !! code = Some count /\
    line = Fmt.d code +:+ ": " +:+ Fmt.d count.
Proof.
  rewrite (code_lines_perm h), list_elem_of_fmap. split.
  - intros [[code count] [-> Hin]]. exists code, count.
    split; [now apply elem_of_map_to_list|reflexivity].
  - intros (code & count & Hm & ->). exists (code, count).
    split; [reflexivity|now apply elem_of_map_to_list].
Qed.

(** X14. Go ranges over a map in an order of its choice.  Whatever the
    order, the sorted status-code lines of the report are the same. *)
Lemma code_lines_any_order h (entries : list (Z * Z)) :
  Permutation entries (map_to_list (StatusCodes h)) ->
  sort_strings (code_line <$> entries) = code_lines h.
Proof.
  intros Hperm. unfold code_lines, sort_strings.
  apply (Sorted_unique String.le).
  - apply Sorted_merge_sort; apply _.
  - apply Sorted_merge_sort; apply _.
  - rewrite !merge_sort_Permutation. now rewrite Hperm.
Qed.

(** C3. For every state, clock and label, [Report] returns a blank line,
    one summary line, and then one line per status code of the histogram
    and no other: each is "<code>: <count>", and they come in increasing
    order of the lines as strings, which is not the order of the codes as
    numbers ("100: 1" comes before "99: 1"). *)
Theorem Report_lines (h : HTTPStats) (clk : Clock) (current : string) :
  (exists summary codes,
      (Report h clk current).1.1 = "" :: summary :: codes /\
      length codes = size (StatusCodes h) /\
      (forall line,
          line ∈ codes <->
          exists code count,
            StatusCodes h !! code = Some count /\
            line = Fmt.d code +:+ ": " +:+ Fmt.d count) /\
      Sorted String.le codes) /\
  (Report codes_99_100 clk current).1.1 =
    [""; status_line (Report codes_99_100 clk current).1.2 current;
     "100: 1"; "99: 1"].
Proof.
  split.
  - rewrite Report_eq. simpl.
    destruct (update_rate_frame h clk) as (_ & Hcodes & _).
    exists (status_line (update_rate h clk).1 current),
           (code_lines (update_rate h clk).1).
    split; [reflexivity|]. split; [|split].
    + now rewrite code_lines_length, Hcodes.
    + intros line. rewrite code_lines_elem. now rewrite Hcodes.
    + apply code_lines_sorted.
  - rewrite Report_eq. simpl. do 2 f_equal.
    destruct (update_rate_frame codes_99_100 clk) as (_ & Hcodes & _).
    unfold code_lines. rewrite Hcodes. vm_compute. reflexivity.
Qed.

(** ** The counters *)

Lemma wrap_add_l a b : GoInt.wrap (GoInt.wrap a + b) = GoInt.wrap (a + b).
Proof.
  unfold GoInt.wrap at 1 3. f_equal.
  rewrite <- !(Z.add_assoc _ b).
  rewrite Zplus_mod, wrap_mod, <- Zplus_mod. reflexivity.
Qed.

Lemma wrap_add_r a b : GoInt.wrap (a + GoInt.wrap b) = GoInt.wrap (a + b).
Proof. rewrite Z.add_comm, wrap_add_l. f_equal. lia. Qed.

Lemma sum_counts_empty : sum_counts ∅ = 0.
Proof. apply map_fold_empty. Qed.

Lemma sum_counts_insert_fresh (m : gmap Z Z) k x :
  m !! k = None -> sum_counts (<[k := x]> m) = x + sum_counts m.
Proof.
  intros Hk. unfold sum_counts.
  rewrite map_fold_insert_L; [reflexivity| |exact Hk].
  intros; lia.
Qed.

Lemma sum_counts_delete (m : gmap Z Z) k v :
  m !! k = Some v -> sum_counts m = v + sum_counts (delete k m).
Proof.
  intros Hk. unfold sum_counts.
  rewrite (map_fold_delete_L _ _ k v m); [reflexivity| |exact Hk].
  intros; lia.
Qed.

(** Storing [x] under [k] changes the sum by [x] minus the old count. *)
Lemma sum_counts_insert (m : gmap Z Z) k x :
  sum_counts (<[k := x]> m) = sum_counts m - default 0 (m !! k) + x.
Proof.
  destruct (m !! k) as [v|] eqn:Hk; simpl.
  - rewrite <- insert_delete_eq, sum_counts_insert_fresh
      by apply lookup_delete_eq.
    rewrite (sum_counts_delete m k v Hk). lia.
  - rewrite sum_counts_insert_fresh by exact Hk. lia.
Qed.

Lemma sum_counts_nonneg (m : gmap Z Z) :
  map_Forall (fun _ v => 0 <= v) m -> 0 <= sum_counts m.
Proof.
  induction m as [|k v m Hk IH] using map_ind; intros Hm.
  - now rewrite sum_counts_empty.
  - rewrite sum_counts_insert_fresh by exact Hk.
    apply map_Forall_insert in Hm; [|exact Hk]. destruct Hm as [Hv Hm].
    specialize (IH Hm). lia.
Qed.

Lemma lookup_le_sum_counts (m : gmap Z Z) k :
  map_Forall (fun _ v => 0 <= v) m ->
  0 <= default 0 (m !! k) <= sum_counts m.
Proof.
  intros Hm. destruct (m !! k) as [v|] eqn:Hk; simpl.
  - rewrite (sum_counts_delete m k v Hk).
    pose proof (sum_counts_nonneg (delete k m) (map_Forall_delete _ _ _ Hm)).
    pose proof (Hm k v Hk). simpl in *. lia.
  - split; [lia|]. now apply sum_counts_nonneg.
Qed.

(** One counted result, in the arithmetic of [int]: [Responses] stays the
    sum of the histogram and of [Errors]. *)
Lemma count_response_wrapped h r h' :
  count_response h r = Some h' ->
  Responses h = GoInt.wrap (sum_counts (StatusCodes h) + Errors h) ->
  Responses h' = GoInt.wrap (sum_counts (StatusCodes h') + Errors h').
Proof.
  unfold count_response. intros Hc Hinv.
  destruct (Error r) as [e|].
  - inversion Hc; subst h'; clear Hc. simpl. unfold GoInt.add.
    rewrite Hinv, wrap_add_l, wrap_add_r. f_equal. lia.
  - destruct (HTTPResponse r) as [resp|]; [|discriminate].
    inversion Hc; subst h'; clear Hc. simpl. unfold GoInt.add.
    rewrite Hinv, wrap_add_l, sum_counts_insert.
    set (v := default 0 (StatusCodes h !! StatusCode resp)).
    replace (sum_counts (StatusCodes h) - v + GoInt.wrap (v + 1) + Errors h)
      with (sum_counts (StatusCodes h) - v + Errors h + GoInt.wrap (v + 1))
      by lia.
    rewrite wrap_add_r. f_equal. lia.
Qed.

(** The same without wrap-around, as long as the number [n] of results
    counted so far is below the largest [int]; [e] is the number of them
    that carried an error. *)
Lemma count_response_counted n e h r h' :
  count_response h r = Some h' ->
  n < GoInt.max_int -> counted n e h ->
  counted (n + 1) (e + if is_error r then 1 else 0) h'.
Proof.
  unfold count_response, counted, is_error.
  intros Hc Hn (HR & HE & He & Hm & Hsum).
  pose proof (sum_counts_nonneg _ Hm) as Hs.
  assert (Hw : forall z, 0 <= z <= n -> GoInt.wrap (z + 1) = z + 1).
  { intros z Hz. apply wrap_id.
    unfold GoInt.in_range, GoInt.min_int, GoInt.max_int in *. lia. }
  destruct (Error r) as [err|].
  - inversion Hc; subst h'; clear Hc. simpl. unfold GoInt.add.
    rewrite HR, HE, !Hw by lia. repeat split; trivial; lia.
  - destruct (HTTPResponse r) as [resp|]; [|discriminate].
    inversion Hc; subst h'; clear Hc. simpl. unfold GoInt.add.
    pose proof (lookup_le_sum_counts (StatusCodes h) (StatusCode resp) Hm) as Hv.
    rewrite HR, HE, !Hw by lia. repeat split; trivial; try lia.
    + apply map_Forall_insert_2; [lia|exact Hm].
    + rewrite sum_counts_insert. lia.
Qed.

(** ** The loop *)

Lemma has_outcome_count h r :
  has_outcome r = true -> is_Some (count_response h r).
Proof.
  unfold has_outcome, count_response.
  destruct (Error r); [eauto|]. destruct (HTTPResponse r); [eauto|discriminate].
Qed.

(** The statistics an iteration counts the response into. *)
Lemma iteration_eq {T} `{Terminal T} filters render (st : run_state T) r c :
  iteration filters render st (r, c) =
  match count_response (match c with
                        | Some c => set_Count (stats st) c
                        | None => stats st
                        end) r with
  | None => None
  | Some h =>
      let h' := (update_rate h (clock st)).1 in
      Some {| stats := h';
              term := SetStatus ("" :: status_line h' (Item r) :: code_lines h')
                        (if print_allowed filters r
                         then Printf (render r +:+ Fmt.nl) (term st)
                         else term st);
              clock := (update_rate h (clock st)).2 |}
  end.
Proof.
  unfold iteration. destruct (count_response _ r) as [h|]; [|reflexivity].
  rewrite Report_eq. reflexivity.
Qed.

(** An iteration keeps the counters as [count_response] leaves them. *)
Lemma iteration_counters {T} `{Terminal T} filters render (st st' : run_state T) r c :
  iteration filters render st (r, c) = Some st' ->
  exists h h',
    Responses h = Responses (stats st) /\ Errors h = Errors (stats st) /\
    StatusCodes h = StatusCodes (stats st) /\
    count_response h r = Some h' /\
    Responses (stats st') = Responses h' /\ Errors (stats st') = Errors h' /\
    StatusCodes (stats st') = StatusCodes h'.
Proof.
  rewrite iteration_eq.
  set (h := match c with Some c0 => set_Count (stats st) c0 | None => stats st end).
  destruct (count_response h r) as [h'|] eqn:Hc; [|discriminate].
  intros Hst. inversion Hst; subst st'; clear Hst. simpl.
  destruct (update_rate_frame h' (clock st)) as (_ & Hcodes & Herr & Hresp & _).
  exists h, h'. subst h. destruct c; simpl; repeat split; trivial.
Qed.

Lemma iteration_Some {T} `{Terminal T} filters render (st : run_state T) r c :
  has_outcome r = true -> is_Some (iteration filters render st (r, c)).
Proof.
  intros Hr. rewrite iteration_eq.
  destruct (has_outcome_count
              (match c with Some c0 => set_Count (stats st) c0 | None => stats st end)
              r Hr) as [h ->].
  eauto.
Qed.

Lemma error_count_cons r responses :
  error_count (r :: responses) =
  (if is_error r then 1 else 0) + error_count responses.
Proof.
  unfold error_count. cbn [List.filter].
  destruct (is_error r); cbn [length]; lia.
Qed.

Lemma counted_ext n e h h' :
  Responses h' = Responses h -> Errors h' = Errors h ->
  StatusCodes h' = StatusCodes h -> counted n e h -> counted n e h'.
Proof. unfold counted. intros -> -> ->. trivial. Qed.

(** The loop runs to its end on results that keep the contract, and the
    counters agree after it. *)
Lemma loop_counters {T} `{Terminal T} filters render inputs :
  forall st : run_state T,
    Forall (fun i => has_outcome i.1 = true) inputs ->
    exists st',
      loop filters render st inputs = Some st' /\
      (Responses (stats st) =
         GoInt.wrap (sum_counts (StatusCodes (stats st)) + Errors (stats st)) ->
       Responses (stats st') =
         GoInt.wrap (sum_counts (StatusCodes (stats st')) + Errors (stats st'))) /\
      (forall n e,
          counted n e (stats st) ->
          n + Z.of_nat (length inputs) <= GoInt.max_int ->
          counted (n + Z.of_nat (length inputs))
                  (e + error_count inputs.*1) (stats st')).
Proof.
  induction inputs as [|[r c] inputs IH]; intros st Hwf.
  - exists st. split; [reflexivity|]. split; [trivial|].
    intros n e Hc _. unfold error_count. simpl.
    now rewrite !Z.add_0_r.
  - apply Forall_cons in Hwf. destruct Hwf as [Hr Hwf]. simpl in Hr.
    destruct (iteration_Some filters render st r c Hr) as [st1 Hst1].
    destruct (IH st1 Hwf) as (st' & Hloop & Hwrap & Hcount).
    exists st'. cbn [loop]. rewrite Hst1. split; [exact Hloop|].
    destruct (iteration_counters _ _ _ _ _ _ Hst1)
      as (h & h' & HR & HE & HS & Hc & HR' & HE' & HS').
    split.
    + intros Hinv. apply Hwrap. rewrite HR', HE', HS'.
      apply (count_response_wrapped h r h' Hc). now rewrite HR, HE, HS.
    + intros n e Hn Hmax.
      assert (Hlen : Z.of_nat (length ((r, c) :: inputs)) =
                     1 + Z.of_nat (length inputs)) by (simpl length; lia).
      rewrite Hlen in *.
      assert (Herr : error_count ((r, c) :: inputs).*1 =
                     (if is_error r then 1 else 0) + error_count inputs.*1).
      { change (((r, c) :: inputs).*1) with (r :: inputs.*1).
        apply error_count_cons. }
      rewrite Herr, !Z.add_assoc. apply Hcount; [|lia].
      apply (counted_ext _ _ h'); trivial.
      apply (count_response_counted n e h r h' Hc); [lia|].
      apply (counted_ext _ _ (stats st)); trivial.
Qed.

Lemma counted_initial start : counted 0 0 (initial_stats start).
Proof.
  unfold counted, initial_stats. simpl. rewrite sum_counts_empty.
  repeat split; try lia. apply map_Forall_empty.
Qed.

(** C1. From the statistics a run starts with, the loop runs through every
    sequence of results that carry an error or a response, and after it
    (so after every result, the sequence being any) [Responses] is the sum
    of the histogram's values plus [Errors], in the arithmetic of [int];
    as long as the number of results fits in an [int], no counter wraps
    around: [Responses] is the number of results, [Errors] the number of
    those with an error, and the sum of the histogram the number of the
    others. *)
Theorem counters_agree {T} `{Terminal T} (filters : list ResponseFilter)
    (render : Response -> string) (inputs : list (Response * option Z))
    (term0 : T) (clock0 : Clock) (start : Z) :
  Forall (fun i => has_outcome i.1 = true) inputs ->
  exists st,
    loop filters render
         {| stats := initial_stats start; term := term0; clock := clock0 |}
         inputs = Some st /\
    Responses (stats st) =
      GoInt.wrap (sum_counts (StatusCodes (stats st)) + Errors (stats st)) /\
    (Z.of_nat (length inputs) <= GoInt.max_int ->
     Responses (stats st) = sum_counts (StatusCodes (stats st)) + Errors (stats st) /\
     Responses (stats st) = Z.of_nat (length inputs) /\
     Errors (stats st) = error_count inputs.*1 /\
     sum_counts (StatusCodes (stats st)) =
       Z.of_nat (length inputs) - error_count inputs.*1).
Proof.
  intros Hwf.
  destruct (loop_counters filters render inputs
              {| stats := initial_stats start; term := term0; clock := clock0 |}
              Hwf) as (st & Hloop & Hwrap & Hcount).
  exists st. split; [exact Hloop|]. split.
  - apply Hwrap. simpl. rewrite sum_counts_empty. reflexivity.
  - intros Hmax.
    destruct (Hcount 0 0 (counted_initial start) ltac:(simpl; lia))
      as (HR & HE & _ & _ & Hsum).
    simpl in *. lia.
Qed.

Lemma counters_agree_witness :
  exists st,
    loop [] render_item
         {| stats := initial_stats 0; term := ([] : Recorder);
            clock := clock_from 0 400000000 |}
         session = Some st /\
    Responses (stats st) =
      GoInt.wrap (sum_counts (StatusCodes (stats st)) + Errors (stats st)) /\
    (Z.of_nat (length session) <= GoInt.max_int ->
     Responses (stats st) = sum_counts (StatusCodes (stats st)) + Errors (stats st) /\
     Responses (stats st) = Z.of_nat (length session) /\
     Errors (stats st) = error_count session.*1 /\
     sum_counts (StatusCodes (stats st)) =
       Z.of_nat (length session) - error_count session.*1).
Proof.
  apply (counters_agree (T := Recorder) [] render_item session []
           (clock_from 0 400000000) 0).
  repeat constructor.
Defined.

(** ** What the terminal receives *)

Lemma fold_Print_Recorder (lines : list string) (t : Recorder) :
  fold_left (fun term line => Print line term) lines t = t ++ map EvPrint lines.
Proof.
  revert t. induction lines as [|line lines IH]; intros t; simpl.
  - now rewrite app_nil_r.
  - rewrite IH. now rewrite <- app_assoc.
Qed.

Lemma iteration_events_Recorder filters render r report (t : Recorder) :
  SetStatus report
    (if print_allowed filters r then Printf (render r +:+ Fmt.nl) t else t) =
  t ++ iteration_events filters render r report.
Proof.
  unfold iteration_events. destruct (print_allowed filters r); simpl.
  - now rewrite <- app_assoc.
  - reflexivity.
Qed.

(** The loop on a recording terminal: the statistics, the clock and the
    status reports do not depend on the filters, on the rendering of the
    results or on what was recorded before; the filters only decide which
    result lines are recorded. *)
Lemma loop_Recorder inputs :
  forall h clk,
    Forall (fun i => has_outcome i.1 = true) inputs ->
    exists reports h' clk',
      length reports = length inputs /\
      forall filters render (t : Recorder),
        loop filters render {| stats := h; term := t; clock := clk |} inputs =
        Some {| stats := h';
                term := t ++ loop_events filters render inputs.*1 reports;
                clock := clk' |}.
Proof.
  induction inputs as [|[r c] inputs IH]; intros h clk Hwf.
  - exists [], h, clk. split; [reflexivity|]. intros filters render t.
    unfold loop_events. simpl. now rewrite app_nil_r.
  - apply Forall_cons in Hwf. destruct Hwf as [Hr Hwf]. simpl in Hr.
    set (h0 := match c with Some c0 => set_Count h c0 | None => h end).
    destruct (has_outcome_count h0 r Hr) as [h1 Hh1].
    set (h2 := (update_rate h1 clk).1).
    set (report := "" :: status_line h2 (Item r) :: code_lines h2).
    destruct (IH h2 (update_rate h1 clk).2 Hwf)
      as (reports & h' & clk' & Hlen & Hloop).
    exists (report :: reports), h', clk'. split; [simpl; now rewrite Hlen|].
    intros filters render t. cbn [loop]. rewrite iteration_eq.
    cbn [stats term clock]. fold h0. rewrite Hh1. cbn zeta. fold h2 report.
    rewrite iteration_events_Recorder, Hloop.
    unfold loop_events. simpl. now rewrite <- app_assoc.
Qed.

(** The statistics and the clock after the loop, on any two terminals and
    with any two lists of filters. *)
Lemma loop_stats_any {T1 T2} `{Terminal T1} `{Terminal T2}
    filters1 filters2 render1 render2 inputs :
  forall (st1 : run_state T1) (st2 : run_state T2),
    stats st1 = stats st2 -> clock st1 = clock st2 ->
    (fun st => (stats st, clock st)) <$> loop filters1 render1 st1 inputs =
    (fun st => (stats st, clock st)) <$> loop filters2 render2 st2 inputs.
Proof.
  induction inputs as [|[r c] inputs IH]; intros st1 st2 Hs Hc.
  - simpl. now rewrite Hs, Hc.
  - cbn [loop]. rewrite !iteration_eq, Hs, Hc.
    destruct (count_response _ r) as [h|]; [|reflexivity].
    cbn zeta. apply IH; reflexivity.
Qed.

Lemma closing_stats {T} `{Terminal T} (st : run_state T) :
  stats (closing st) = (update_rate (stats st) (now (clock st)).2).1 /\
  clock (closing st) = (update_rate (stats st) (now (clock st)).2).2.
Proof. unfold closing. simpl. rewrite Report_eq. split; reflexivity. Qed.

(** The calls after the loop, on a recording terminal. *)
Lemma closing_Recorder (st : run_state Recorder) :
  term (closing st) =
  term st ++
  [EvPrint Fmt.nl;
   EvPrintf (processed_text (Responses (stats st))
               (formatSeconds
                  (Seconds (Since (reading (clock st) (tick (clock st)))
                                  (Start (stats st))))));
   EvPrint (status_line (stats (closing st)) "")] ++
  map EvPrint (code_lines (stats (closing st))).
Proof.
  rewrite (proj1 (closing_stats st)). unfold closing. simpl.
  rewrite Report_eq. cbn [drop term]. rewrite fold_Print_Recorder.
  simpl. rewrite <- !app_assoc. reflexivity.
Qed.

(** [Display] on a recording terminal, on results that keep the contract:
    the state after the loop and the state at the end. *)
Lemma Display_Recorder inputs clock0 :
  Forall (fun i => has_outcome i.1 = true) inputs ->
  exists reports h clk,
    length reports = length inputs /\
    forall filters render,
      loop filters render
           {| stats := initial_stats (now clock0).1;
              term := [EvPrintf header_text]; clock := (now clock0).2 |}
           inputs =
      Some {| stats := h;
              term := EvPrintf header_text ::
                        loop_events filters render inputs.*1 reports;
              clock := clk |} /\
      Display (T := Recorder) filters render inputs [] clock0 =
      Some (closing
              {| stats := h;
                 term := EvPrintf header_text ::
                           loop_events filters render inputs.*1 reports;
                 clock := clk |}).
Proof.
  intros Hwf.
  destruct (loop_Recorder inputs (initial_stats (now clock0).1) (now clock0).2 Hwf)
    as (reports & h & clk & Hlen & Hloop).
  exists reports, h, clk. split; [exact Hlen|]. intros filters render.
  specialize (Hloop filters render [EvPrintf header_text]).
  split; [exact Hloop|].
  unfold Display. cbn [Printf Recorder_Terminal app].
  destruct (now clock0) as [start clock1]. cbn [fst snd] in Hloop.
  now rewrite Hloop.
Qed.

(** C4, as amended.  When the result stream closes, the reporter appends
    to the transcript, and does nothing else: a blank line, one line with
    the number of responses and the elapsed time formatted directly, then
    the lines of a new report with an empty label except its blank line,
    that is its summary line followed by its sorted status-code lines. *)
Theorem Display_closing_lines (filters : list ResponseFilter)
    (render : Response -> string) (inputs : list (Response * option Z))
    (clock0 : Clock) :
  Forall (fun i => has_outcome i.1 = true) inputs ->
  exists st_loop st,
    loop filters render
         {| stats := initial_stats (now clock0).1;
            term := [EvPrintf header_text]; clock := (now clock0).2 |}
         inputs = Some st_loop /\
    Display (T := Recorder) filters render inputs [] clock0 = Some st /\
    stats st = (Report (stats st_loop) (now (clock st_loop)).2 "").1.2 /\
    term st =
      term st_loop ++
      [EvPrint Fmt.nl;
       EvPrintf (processed_text (Responses (stats st_loop))
                   (formatSeconds
                      (Seconds (Since (now (clock st_loop)).1
                                      (Start (stats st_loop))))));
       EvPrint (status_line (stats st) "")] ++
      map EvPrint (code_lines (stats st)).
Proof.
  intros Hwf.
  destruct (Display_Recorder inputs clock0 Hwf) as (reports & h & clk & _ & HD).
  destruct (HD filters render) as [Hloop HDisplay].
  eexists _, _. split; [exact Hloop|]. split; [exact HDisplay|]. split.
  - rewrite (proj1 (closing_stats _)), Report_eq. reflexivity.
  - apply closing_Recorder.
Qed.

Lemma Display_closing_lines_witness :
  exists st_loop st,
    loop [reject_all] render_item
         {| stats := initial_stats (now (clock_from 0 400000000)).1;
            term := [EvPrintf header_text];
            clock := (now (clock_from 0 400000000)).2 |}
         session = Some st_loop /\
    Display (T := Recorder) [reject_all] render_item session []
            (clock_from 0 400000000) = Some st /\
    stats st = (Report (stats st_loop) (now (clock st_loop)).2 "").1.2 /\
    term st =
      term st_loop ++
      [EvPrint Fmt.nl;
       EvPrintf (processed_text (Responses (stats st_loop))
                   (formatSeconds
                      (Seconds (Since (now (clock st_loop)).1
                                      (Start (stats st_loop))))));
       EvPrint (status_line (stats st) "")] ++
      map EvPrint (code_lines (stats st)).
Proof.
  apply (Display_closing_lines [reject_all] render_item session
           (clock_from 0 400000000)).
  repeat constructor.
Defined.

(** C4, as stated, fails already on a stream that is closed at once: the
    histogram is empty, so there is no status-code line, and yet a third
    line follows the blank line and the final summary: the summary line of
    the report. *)
Lemma Display_closing_on_empty_stream :
  term <$> Display (T := Recorder) [] render_item [] [] (clock_at 0) =
    Some [EvPrintf header_text; EvPrint Fmt.nl;
          EvPrintf (processed_text 0 "0m00s"); EvPrint "0 requests"] /\
  (fun st => code_lines (stats st)) <$>
    Display (T := Recorder) [] render_item [] [] (clock_at 0) = Some [] /\
  term <$> Display (T := Recorder) [] render_item [] [] (clock_at 0) <>
    (fun st => [EvPrintf header_text; EvPrint Fmt.nl;
                EvPrintf (processed_text 0 "0m00s")] ++
               map EvPrint (code_lines (stats st))) <$>
    Display (T := Recorder) [] render_item [] [] (clock_at 0).
Proof. vm_compute. repeat split; discriminate. Qed.

Lemma iteration_events_shape filters render r report :
  exists pre,
    iteration_events filters render r report = pre ++ [EvSetStatus report] /\
    forallb is_append pre = true.
Proof.
  unfold iteration_events. destruct (print_allowed filters r).
  - exists [EvPrintf (render r +:+ Fmt.nl)]. split; reflexivity.
  - exists []. split; reflexivity.
Qed.

Lemma closing_events_append (st : run_state Recorder) :
  exists events,
    term (closing st) = term st ++ events /\ forallb is_append events = true.
Proof.
  eexists. split; [apply closing_Recorder|].
  rewrite forallb_app. simpl.
  induction (code_lines (stats (closing st))) as [|line lines IH];
    [reflexivity|exact IH].
Qed.

(** C8. On results that keep the contract the reporter's calls are, in
    order: the header line; for every result one segment that ends with
    the one [SetStatus] of that result, preceded only by appends (the line
    of the result, or nothing); and, once the stream is closed, appends
    only.  So [SetStatus] is called exactly once after every result and
    never after the stream is closed. *)
Theorem SetStatus_once_per_result (filters : list ResponseFilter)
    (render : Response -> string) (inputs : list (Response * option Z))
    (clock0 : Clock) :
  Forall (fun i => has_outcome i.1 = true) inputs ->
  exists st segments closing_events,
    Display (T := Recorder) filters render inputs [] clock0 = Some st /\
    term st = EvPrintf header_text :: concat segments ++ closing_events /\
    length segments = length inputs /\
    Forall (fun segment =>
              exists pre report,
                segment = pre ++ [EvSetStatus report] /\
                forallb is_append pre = true) segments /\
    forallb is_append closing_events = true.
Proof.
  intros Hwf.
  destruct (Display_Recorder inputs clock0 Hwf) as (reports & h & clk & Hlen & HD).
  destruct (HD filters render) as [_ HDisplay].
  destruct (closing_events_append
              {| stats := h;
                 term := EvPrintf header_text ::
                           loop_events filters render inputs.*1 reports;
                 clock := clk |}) as (events & Hterm & Happ).
  exists (closing
            {| stats := h;
               term := EvPrintf header_text ::
                         loop_events filters render inputs.*1 reports;
               clock := clk |}),
         (zip_with (iteration_events filters render) inputs.*1 reports),
         events.
  split; [exact HDisplay|]. split; [exact Hterm|]. split; [|split].
  - rewrite length_zip_with, length_fmap. lia.
  - clear. generalize (inputs.*1). intros responses. revert reports.
    induction responses as [|r responses IH]; intros [|report reports];
      simpl; constructor.
    + destruct (iteration_events_shape filters render r report) as (pre & E & Hp).
      exists pre, report. split; assumption.
    + apply IH.
  - exact Happ.
Qed.

Lemma SetStatus_once_per_result_witness :
  exists st segments closing_events,
    Display (T := Recorder) [reject_none] render_item session []
            (clock_from 0 400000000) = Some st /\
    term st = EvPrintf header_text :: concat segments ++ closing_events /\
    length segments = length session /\
    Forall (fun segment =>
              exists pre report,
                segment = pre ++ [EvSetStatus report] /\
                forallb is_append pre = true) segments /\
    forallb is_append closing_events = true.
Proof.
  apply (SetStatus_once_per_result [reject_none] render_item session
           (clock_from 0 400000000)).
  repeat constructor.
Defined.

Lemma print_allowed_iff filters r :
  print_allowed filters r = true <-> Forall (fun f : ResponseFilter => f r = false) filters.
Proof.
  induction filters as [|f filters IH]; simpl.
  - split; [constructor|reflexivity].
  - destruct (f r) eqn:Hf.
    + split; [discriminate|]. intros HF. apply Forall_cons in HF.
      destruct HF as [HF _]. congruence.
    + rewrite IH. split.
      * intros HF. constructor; assumption.
      * intros HF. apply Forall_cons in HF. tauto.
Qed.

(** C6. The statistics at the end of a run are the same for any two lists
    of filters (on any terminals, whatever the results are); on results
    that keep the contract the run ends, and the filters decide nothing
    but the presence of each result's line among the calls the terminal
    receives: the line is left out exactly when some filter rejects the
    result, so always with the filters reject-all and reject-none, and
    never without filters. *)
Theorem filters_only_hide_lines :
  (forall T1 T2 (H1 : Terminal T1) (H2 : Terminal T2)
          (filters1 filters2 : list ResponseFilter)
          (render : Response -> string)
          (inputs : list (Response * option Z)) (t1 : T1) (t2 : T2)
          (clock0 : Clock),
      stats <$> Display filters1 render inputs t1 clock0 =
      stats <$> Display filters2 render inputs t2 clock0) /\
  (forall (render : Response -> string)
          (inputs : list (Response * option Z)) (clock0 : Clock),
      Forall (fun i => has_outcome i.1 = true) inputs ->
      exists h reports closing_events,
        length reports = length inputs /\
        forall filters : list ResponseFilter,
          exists st,
            Display (T := Recorder) filters render inputs [] clock0 = Some st /\
            stats st = h /\
            term st =
              EvPrintf header_text ::
                loop_events filters render inputs.*1 reports ++ closing_events) /\
  (forall (filters : list ResponseFilter) (r : Response),
      print_allowed filters r = true <->
      Forall (fun f : ResponseFilter => f r = false) filters) /\
  (forall r : Response,
      print_allowed [reject_all; reject_none] r = false /\
      print_allowed [] r = true).
Proof.
  split; [|split; [|split]].
  - intros T1 T2 H1 H2 filters1 filters2 render inputs t1 t2 clock0.
    unfold Display. destruct (now clock0) as [start clock1].
    pose proof (loop_stats_any filters1 filters2 render render inputs
                  {| stats := initial_stats start;
                     term := Printf header_text t1; clock := clock1 |}
                  {| stats := initial_stats start;
                     term := Printf header_text t2; clock := clock1 |}
                  eq_refl eq_refl) as Hloop.
    destruct (loop filters1 _ _ inputs) as [st1|];
      destruct (loop filters2 _ _ inputs) as [st2|];
      simpl in Hloop; try discriminate; [|reflexivity].
    inversion Hloop as [[Hs Hc]]. simpl.
    rewrite (proj1 (closing_stats st1)), (proj1 (closing_stats st2)).
    now rewrite Hs, Hc.
  - intros render inputs clock0 Hwf.
    destruct (Display_Recorder inputs clock0 Hwf)
      as (reports & h & clk & Hlen & HD).
    exists (update_rate h (now clk).2).1, reports,
      ([EvPrint Fmt.nl;
        EvPrintf (processed_text (Responses h)
                    (formatSeconds (Seconds (Since (now clk).1 (Start h)))));
        EvPrint (status_line (update_rate h (now clk).2).1 "")] ++
       map EvPrint (code_lines (update_rate h (now clk).2).1)).
    split; [exact Hlen|]. intros filters.
    destruct (HD filters render) as [_ HDisplay].
    eexists. split; [exact HDisplay|]. split.
    + apply closing_stats.
    + rewrite closing_Recorder. rewrite (proj1 (closing_stats _)). reflexivity.
  - apply print_allowed_iff.
  - intros r. split; reflexivity.
Qed.

Lemma filters_only_hide_lines_witness :
  exists h reports closing_events,
    length reports = length session /\
    forall filters : list ResponseFilter,
      exists st,
        Display (T := Recorder) filters render_item session []
                (clock_from 0 400000000) = Some st /\
        stats st = h /\
        term st =
          EvPrintf header_text ::
            loop_events filters render_item session.*1 reports ++ closing_events.
Proof.
  apply (proj1 (proj2 filters_only_hide_lines) render_item session
           (clock_from 0 400000000)).
  repeat constructor.
Defined.

(** ** The log terminal *)

(** A format without percent sign is printed as it is. *)
Lemma Sprintf0_plain msg : has_percent msg = false -> Fmt.Sprintf0 msg = msg.
Proof.
  unfold Fmt.Sprintf0. induction msg as [|c msg IH]; simpl; [reflexivity|].
  destruct (Ascii.eqb c "%"); [discriminate|]. simpl.
  intros Hp. now rewrite IH.
Qed.

Lemma has_percent_app a b :
  has_percent (a +:+ b) = has_percent a || has_percent b.
Proof.
  induction a as [|c a IH]; simpl; [reflexivity|].
  change (String c a +:+ b) with (String c (a +:+ b)).
  simpl. now rewrite IH, orb_assoc.
Qed.

(** X15. Where the sink does receive the line of the terminal: on
    messages without percent sign, [Print] writes to the sink exactly the
    line it prints. *)
Lemma LogTerminal_Print_plain msg lt :
  has_percent msg = false ->
  exists line,
    Terminal_printed (LogTerminal_Print msg lt) = Terminal_printed lt ++ [line] /\
    w (LogTerminal_Print msg lt) = w lt +:+ line /\
    line = (if HasSuffix_nl msg then msg else msg +:+ Fmt.nl).
Proof.
  intros Hp. unfold LogTerminal_Print. simpl.
  exists (if HasSuffix_nl msg then msg else msg +:+ Fmt.nl).
  split; [reflexivity|]. split; [|reflexivity].
  rewrite Sprintf0_plain; [reflexivity|].
  destruct (HasSuffix_nl msg); [exact Hp|].
  rewrite has_percent_app, Hp. reflexivity.
Qed.

(** C5 (the sink receives the characters the terminal receives, whatever
    the message) does not hold of the code.  [Print] hands the message to
    [fmt.Fprintf] as the format string, so a percent sign in it is read as
    a verb: the terminal receives "100%%" and "id=%d" as they are, while
    the sink receives "100%" and "id=%!d(MISSING)". *)
Theorem LogTerminal_Print_percent :
  Terminal_printed (LogTerminal_Print "100%%" new_LogTerminal) =
    ["100%%" +:+ Fmt.nl] /\
  w (LogTerminal_Print "100%%" new_LogTerminal) = "100%" +:+ Fmt.nl /\
  Terminal_printed (LogTerminal_Print "id=%d" new_LogTerminal) =
    ["id=%d" +:+ Fmt.nl] /\
  w (LogTerminal_Print "id=%d" new_LogTerminal) =
    "id=%!d(MISSING)" +:+ Fmt.nl.
Proof. vm_compute. repeat split. Qed.

(** ** Two runs *)

(** The sample session with a filter that rejects every result: the
    terminal receives the header, one status per result, and the closing
    lines. *)
Lemma session_rejected_calls :
  term <$> Display (T := Recorder) [reject_all] render_item session []
                   (clock_from 0 400000000) =
  Some [EvPrintf header_text;
        EvSetStatus [""; "1 requests, 4 todo, current: a"; "200: 1"];
        EvSetStatus [""; "2 requests, 3 todo, current: b"; "200: 2"];
        EvSetStatus
          [""; "3 requests, 3 req/s, 2 todo, 0m00s remaining, current: c";
           "200: 2"];
        EvSetStatus
          [""; "4 requests, 3 req/s, 1 todo, 0m00s remaining, current: d";
           "200: 2"; "404: 1"];
        EvPrint Fmt.nl;
        EvPrintf (processed_text 4 "0m03s");
        EvPrint "4 requests, 1 req/s, 1 todo, 0m00s remaining";
        EvPrint "200: 2"; EvPrint "404: 1"].
Proof. vm_compute. reflexivity. Qed.

(** [Duration.Seconds] rounds to the nearest float before the formatter
    is called: 16777216 seconds and 999999999 nanoseconds are passed to it
    as 16777217 seconds. *)
Lemma Seconds_rounds_to_nearest :
  Seconds 16777216999999999 = GoFloat.of_int 16777217 /\
  formatSeconds (Seconds 16777216999999999) = "4660h20m17s".
Proof. vm_compute. split; reflexivity. Qed.

(** * Part III: further properties of the reporter *)

(** ** When a run ends *)

Lemma count_response_is_Some h r :
  is_Some (count_response h r) <-> has_outcome r = true.
Proof.
  unfold count_response, has_outcome.
  destruct (Error r); [split; eauto|].
  destruct (HTTPResponse r); [split; eauto|].
  split; [intros [? ?]; discriminate|discriminate].
Qed.

Lemma iteration_is_Some {T} `{Terminal T} filters render (st : run_state T) r c :
  is_Some (iteration filters render st (r, c)) <-> has_outcome r = true.
Proof.
  rewrite iteration_eq, <- (count_response_is_Some
    (match c with Some c0 => set_Count (stats st) c0 | None => stats st end) r).
  destruct (count_response _ r); split; eauto; intros [? ?]; discriminate.
Qed.

Lemma loop_is_Some {T} `{Terminal T} filters render inputs :
  forall st : run_state T,
    is_Some (loop filters render st inputs) <->
    Forall (fun i => has_outcome i.1 = true) inputs.
Proof.
  induction inputs as [|[r c] inputs IH]; intros st.
  - split; [constructor|simpl; eauto].
  - cbn [loop]. rewrite Forall_cons. cbn [fst].
    rewrite <- (iteration_is_Some filters render st r c).
    destruct (iteration filters render st (r, c)) as [st1|].
    + rewrite IH. split; [eauto|tauto].
    + split; [intros [? ?]; discriminate|intros [[? ?] _]; discriminate].
Qed.

Lemma Display_Some_of_contract {T} `{Terminal T} filters render inputs
    (term0 : T) clock0 :
  Forall (fun i => has_outcome i.1 = true) inputs ->
  is_Some (Display filters render inputs term0 clock0).
Proof.
  intros Hwf. unfold Display. destruct (now clock0) as [start clock1].
  destruct (proj2 (loop_is_Some filters render inputs
                     {| stats := initial_stats start;
                        term := Printf header_text term0; clock := clock1 |})
                  Hwf) as [st ->].
  eauto.
Qed.

(** X1. A run of [Display] on a closed stream ends normally exactly when
    every result carries an error or a response; a single result with
    neither makes the run panic (the nil [HTTPResponse] is dereferenced),
    whatever the filters, the terminal and the other results are. *)
Theorem Display_ends_iff {T} `{Terminal T} (filters : list ResponseFilter)
    (render : Response -> string) (inputs : list (Response * option Z))
    (term0 : T) (clock0 : Clock) :
  is_Some (Display filters render inputs term0 clock0) <->
  Forall (fun i => has_outcome i.1 = true) inputs.
Proof.
  unfold Display. destruct (now clock0) as [start clock1].
  rewrite <- (loop_is_Some filters render inputs
                {| stats := initial_stats start;
                   term := Printf header_text term0; clock := clock1 |}).
  destruct (loop _ _ _ inputs); split; eauto; intros [? ?]; discriminate.
Qed.

(** ** The histogram *)

Lemma status_count_snoc k responses r :
  status_count k (responses ++ [r]) =
  status_count k responses + (if counts_as k r then 1 else 0).
Proof.
  unfold status_count. rewrite List.filter_app, length_app, Nat2Z.inj_add.
  cbn [List.filter]. destruct (counts_as k r); reflexivity.
Qed.

Lemma status_count_nonneg k responses : 0 <= status_count k responses.
Proof. unfold status_count. lia. Qed.

(** One counted result keeps the histogram exact, as long as no counter
    wraps around. *)
Lemma count_response_histogram n e done h r h' :
  count_response h r = Some h' ->
  n < GoInt.max_int -> counted n e h ->
  histogram_of done (StatusCodes h) ->
  histogram_of (done ++ [r]) (StatusCodes h').
Proof.
  unfold count_response, histogram_of.
  intros Hc Hn (_ & _ & He & Hm & Hsum) Hh k.
  rewrite status_count_snoc. unfold counts_as.
  destruct (Error r) as [err|].
  - inversion Hc; subst h'; clear Hc. simpl. rewrite Z.add_0_r. apply Hh.
  - destruct (HTTPResponse r) as [resp|]; [|discriminate].
    inversion Hc; subst h'; clear Hc. simpl.
    pose proof (lookup_le_sum_counts (StatusCodes h) k Hm) as Hv.
    pose proof (status_count_nonneg k done) as Hk.
    destruct (Z.eqb_spec (StatusCode resp) k) as [->|Hne].
    + rewrite lookup_insert_eq.
      assert (Hold : default 0 (StatusCodes h !! k) = status_count k done).
      { rewrite Hh. destruct (Z.eqb_spec (status_count k done) 0) as [->|]; reflexivity. }
      rewrite Hold in *. unfold GoInt.add.
      rewrite wrap_id
        by (unfold GoInt.in_range, GoInt.min_int, GoInt.max_int in *; lia).
      destruct (Z.eqb_spec (status_count k done + 1) 0); [lia|reflexivity].
    + rewrite lookup_insert_ne by exact Hne. rewrite Z.add_0_r. apply Hh.
Qed.

Lemma histogram_of_ext done h h' :
  StatusCodes h' = StatusCodes h ->
  histogram_of done (StatusCodes h) -> histogram_of done (StatusCodes h').
Proof. now intros ->. Qed.

Lemma loop_histogram {T} `{Terminal T} filters render inputs :
  forall (st : run_state T) done n e,
    Forall (fun i => has_outcome i.1 = true) inputs ->
    counted n e (stats st) ->
    n + Z.of_nat (length inputs) <= GoInt.max_int ->
    histogram_of done (StatusCodes (stats st)) ->
    exists st',
      loop filters render st inputs = Some st' /\
      histogram_of (done ++ inputs.*1) (StatusCodes (stats st')).
Proof.
  induction inputs as [|[r c] inputs IH]; intros st done n e Hwf Hn Hmax Hh.
  - exists st. split; [reflexivity|]. simpl. now rewrite app_nil_r.
  - apply Forall_cons in Hwf. destruct Hwf as [Hr Hwf]. simpl in Hr.
    assert (Hlen : Z.of_nat (length ((r, c) :: inputs)) =
                   1 + Z.of_nat (length inputs)) by (simpl length; lia).
    rewrite Hlen in Hmax.
    destruct (iteration_Some filters render st r c Hr) as [st1 Hst1].
    destruct (iteration_counters _ _ _ _ _ _ Hst1)
      as (h & h' & HR & HE & HS & Hc & HR' & HE' & HS').
    assert (Hn0 : counted n e h) by (apply (counted_ext _ _ (stats st)); trivial).
    assert (Hn1 : counted (n + 1) (e + if is_error r then 1 else 0) (stats st1)).
    { apply (counted_ext _ _ h'); trivial.
      apply (count_response_counted n e h r h' Hc); [|exact Hn0].
      pose proof (Nat2Z.is_nonneg (length inputs)). lia. }
    assert (Hh1 : histogram_of (done ++ [r]) (StatusCodes (stats st1))).
    { rewrite HS'.
      apply (count_response_histogram n e done h r h' Hc); trivial.
      - pose proof (Nat2Z.is_nonneg (length inputs)). lia.
      - now rewrite HS. }
    destruct (IH st1 (done ++ [r]) _ _ Hwf Hn1 ltac:(lia) Hh1)
      as (st' & Hloop & Hh').
    exists st'. cbn [loop]. rewrite Hst1. split; [exact Hloop|].
    change (((r, c) :: inputs).*1) with (r :: inputs.*1).
    now rewrite <- app_assoc in Hh'.
Qed.

(** X2. After [Display] on results that keep the contract (and are not
    more than the largest [int]), the histogram holds under every status
    code exactly the number of results that had no error and that status,
    and has no entry for a status no such result had: a result with an
    error is never counted under a status, even when it carries a
    response too. *)
Theorem histogram_counts {T} `{Terminal T} (filters : list ResponseFilter)
    (render : Response -> string) (inputs : list (Response * option Z))
    (term0 : T) (clock0 : Clock) :
  Forall (fun i => has_outcome i.1 = true) inputs ->
  Z.of_nat (length inputs) <= GoInt.max_int ->
  exists st,
    Display filters render inputs term0 clock0 = Some st /\
    forall k,
      StatusCodes (stats st) !! k =
      if status_count k inputs.*1 =? 0 then None
      else Some (status_count k inputs.*1).
Proof.
  intros Hwf Hmax. unfold Display.
  destruct (now clock0) as [start clock1].
  destruct (loop_histogram filters render inputs
              {| stats := initial_stats start;
                 term := Printf header_text term0; clock := clock1 |}
              [] 0 0 Hwf (counted_initial start) ltac:(simpl; lia))
    as (st & Hloop & Hh).
  { intros k. simpl. apply lookup_empty. }
  rewrite Hloop. eexists. split; [reflexivity|].
  intros k. rewrite (proj1 (closing_stats st)).
  destruct (update_rate_frame (stats st) (now (clock st)).2) as (_ & -> & _).
  apply Hh.
Qed.

Lemma histogram_counts_witness :
  exists st,
    Display (T := Recorder) [] render_item session [] (clock_from 0 400000000) =
      Some st /\
    forall k,
      StatusCodes (stats st) !! k =
      if status_count k session.*1 =? 0 then None
      else Some (status_count k session.*1).
Proof.
  apply (histogram_counts (T := Recorder) [] render_item session []
           (clock_from 0 400000000)).
  - repeat constructor.
  - vm_compute. discriminate.
Defined.

(** ** The expected total and the start of the run *)

Lemma count_response_keeps h r h' :
  count_response h r = Some h' ->
  Start h' = Start h /\ Count h' = Count h /\
  rps h' = rps h /\ lastRPS h' = lastRPS h.
Proof.
  unfold count_response. intros Hc.
  destruct (Error r).
  - inversion Hc; subst h'. simpl. tauto.
  - destruct (HTTPResponse r); [|discriminate].
    inversion Hc; subst h'. simpl. tauto.
Qed.

Lemma iteration_Start_Count {T} `{Terminal T} filters render
    (st st' : run_state T) r c :
  iteration filters render st (r, c) = Some st' ->
  Start (stats st') = Start (stats st) /\
  Count (stats st') = default (Count (stats st)) c.
Proof.
  rewrite iteration_eq.
  set (h := match c with Some c0 => set_Count (stats st) c0 | None => stats st end).
  destruct (count_response h r) as [h'|] eqn:Hc; [|discriminate].
  intros Hst. inversion Hst; subst st'; clear Hst. simpl.
  destruct (update_rate_frame h' (clock st)) as (-> & _ & _ & _ & ->).
  destruct (count_response_keeps h r h' Hc) as (-> & -> & _).
  subst h. destruct c; simpl; split; reflexivity.
Qed.

Lemma loop_Start_Count {T} `{Terminal T} filters render inputs :
  forall st st' : run_state T,
    loop filters render st inputs = Some st' ->
    Start (stats st') = Start (stats st) /\
    Count (stats st') = default (Count (stats st)) (last (omap snd inputs)).
Proof.
  induction inputs as [|[r c] inputs IH]; intros st st' Hloop.
  - inversion Hloop; subst st'. split; reflexivity.
  - cbn [loop] in Hloop.
    destruct (iteration filters render st (r, c)) as [st1|] eqn:Hst1;
      [|discriminate].
    destruct (iteration_Start_Count _ _ _ _ _ _ Hst1) as [HS HC].
    destruct (IH st1 st' Hloop) as [HS' HC'].
    split; [congruence|]. rewrite HC', HC.
    destruct c as [c|]; cbn [omap list_omap snd default].
    + fold (omap snd inputs). rewrite last_cons.
      destruct (last (omap snd inputs)); reflexivity.
    + reflexivity.
Qed.

(** X3. After [Display] on results that keep the contract, [Count] is the
    expected total that the loop found last on [countChannel], whatever
    came before it (smaller or larger), and zero when the channel never
    had a value ready; [Start] is still the time read before the loop. *)
Theorem Count_is_last_received {T} `{Terminal T}
    (filters : list ResponseFilter) (render : Response -> string)
    (inputs : list (Response * option Z)) (term0 : T) (clock0 : Clock) :
  Forall (fun i => has_outcome i.1 = true) inputs ->
  exists st,
    Display filters render inputs term0 clock0 = Some st /\
    Count (stats st) = last_count inputs /\
    Start (stats st) = reading clock0 (tick clock0).
Proof.
  intros Hwf.
  destruct (Display_Some_of_contract filters render inputs term0 clock0 Hwf)
    as [st Hst].
  exists st. split; [exact Hst|].
  unfold Display in Hst. cbn [now] in Hst.
  destruct (loop _ _ _ inputs) as [st1|] eqn:Hloop; [|discriminate].
  inversion Hst; subst st; clear Hst.
  destruct (loop_Start_Count _ _ _ _ _ Hloop) as [HS HC].
  rewrite (proj1 (closing_stats st1)).
  destruct (update_rate_frame (stats st1) (now (clock st1)).2)
    as (-> & _ & _ & _ & ->).
  split; [exact HC|exact HS].
Qed.

Lemma Count_is_last_received_witness :
  exists st,
    Display (T := Recorder) [] render_item
            (session ++ [(response_of "e" 200, Some 3)]) []
            (clock_from 0 400000000) = Some st /\
    Count (stats st) = 3 /\
    Start (stats st) = 0.
Proof.
  apply (Count_is_last_received (T := Recorder) [] render_item
           (session ++ [(response_of "e" 200, Some 3)]) []
           (clock_from 0 400000000)).
  repeat constructor.
Defined.

(** ** The first second of a run *)

Lemma string_app_nil_r (s : string) : s +:+ "" = s.
Proof.
  induction s as [|c s IH]; [reflexivity|].
  change (String c s +:+ "") with (String c (s +:+ "")). now rewrite IH.
Qed.

Lemma string_app_assoc (a b c : string) : (a +:+ b) +:+ c = a +:+ (b +:+ c).
Proof.
  induction a as [|x a IH]; [reflexivity|].
  change ((String x a +:+ b) +:+ c) with (String x ((a +:+ b) +:+ c)).
  change (String x a +:+ (b +:+ c)) with (String x (a +:+ (b +:+ c))).
  now rewrite IH.
Qed.

Lemma Since_lt_Second t u : t - u < Second -> Since t u < Second.
Proof.
  unfold Since, Sub, Second, GoInt.min_int, GoInt.max_int. lia.
Qed.

(** Before one full second has passed since [Start], the rate is left
    alone. *)
Lemma update_rate_early h clk :
  Since (reading clk (tick clk)) (Start h) < Second ->
  update_rate h clk = (h, (now clk).2).
Proof.
  intros Hlt. unfold update_rate. cbn [now fst snd].
  rewrite whole_seconds_pos.
  destruct (Z.leb_spec Second (Since (reading clk (tick clk)) (Start h)));
    [lia|reflexivity].
Qed.

(** X4. While less than one full second has passed since [Start],
    [Report] changes nothing in the statistics; and as long as the rate is
    not positive the summary line is the number of responses, the number
    still to do when an expected total is known, and the label when there
    is one: no rate and no remaining time. *)
Theorem Report_before_first_second (h : HTTPStats) (clk : Clock)
    (current : string) :
  Since (reading clk (tick clk)) (Start h) < Second ->
  (Report h clk current).1.2 = h /\
  (GoFloat.gt0 (rps h) = false ->
   (Report h clk current).1.1 !! 1%nat =
   Some (Fmt.d (Responses h) +:+ " requests" +:+
         (if 0 <? Count h
          then ", " +:+ Fmt.d (GoInt.sub (Count h) (Responses h)) +:+ " todo"
          else "") +:+
         (if String.eqb current "" then "" else ", current: " +:+ current))).
Proof.
  intros Hlt. rewrite Report_eq, (update_rate_early h clk Hlt).
  split; [reflexivity|]. intros Hr. cbn [fst snd lookup list_lookup].
  f_equal. unfold status_line. rewrite Hr.
  destruct (0 <? Count h); destruct (String.eqb current "");
    rewrite ?string_app_assoc, ?string_app_nil_r; reflexivity.
Qed.

Lemma Report_before_first_second_witness :
  (Report (initial_stats 0) (clock_at 999999999) "a").1.2 = initial_stats 0 /\
  (GoFloat.gt0 (rps (initial_stats 0)) = false ->
   (Report (initial_stats 0) (clock_at 999999999) "a").1.1 !! 1%nat =
   Some ("0 requests" +:+ "" +:+ ", current: a")).
Proof.
  apply (Report_before_first_second (initial_stats 0) (clock_at 999999999) "a").
  vm_compute. reflexivity.
Defined.

Lemma loop_first_second {T} `{Terminal T} filters render inputs :
  forall (st st' : run_state T),
    (forall n, reading (clock st) n - Start (stats st) < Second) ->
    rps (stats st) = GoFloat.zero -> lastRPS (stats st) = zeroTime ->
    loop filters render st inputs = Some st' ->
    rps (stats st') = GoFloat.zero /\ lastRPS (stats st') = zeroTime /\
    reading (clock st') = reading (clock st) /\
    Start (stats st') = Start (stats st).
Proof.
  induction inputs as [|[r c] inputs IH]; intros st st' Hclk Hr Hl Hloop.
  - inversion Hloop; subst st'. tauto.
  - cbn [loop] in Hloop.
    destruct (iteration filters render st (r, c)) as [st1|] eqn:Hst1;
      [|discriminate].
    rewrite iteration_eq in Hst1.
    set (h := match c with Some c0 => set_Count (stats st) c0 | None => stats st end)
      in Hst1.
    destruct (count_response h r) as [h'|] eqn:Hc; [|discriminate].
    destruct (count_response_keeps h r h' Hc) as (HS & _ & Hr' & Hl').
    assert (Hh : Start h = Start (stats st) /\ rps h = rps (stats st) /\
                 lastRPS h = lastRPS (stats st))
      by (subst h; destruct c; simpl; tauto).
    destruct Hh as (HhS & Hhr & Hhl).
    assert (Hearly : Since (reading (clock st) (tick (clock st))) (Start h')
                     < Second)
      by (apply Since_lt_Second; rewrite HS, HhS; apply Hclk).
    rewrite (update_rate_early h' (clock st) Hearly) in Hst1.
    cbn zeta in Hst1. inversion Hst1; subst st1; clear Hst1.
    apply IH in Hloop; cbn [stats clock reading] in *.
    + destruct Hloop as (Hr1 & Hl1 & Hc1 & HS1). repeat split; congruence.
    + intros n. rewrite HS, HhS. apply Hclk.
    + congruence.
    + congruence.
Qed.

(** X5. In a run whose clock never reads a full second past the time read
    at its start, the rate is never computed: on results that keep the
    contract, however many, [Display] ends with the rate still zero and
    [lastRPS] still the zero time. *)
Theorem rate_stays_zero_in_first_second {T} `{Terminal T}
    (filters : list ResponseFilter) (render : Response -> string)
    (inputs : list (Response * option Z)) (term0 : T) (clock0 : Clock) :
  (forall n, reading clock0 n - reading clock0 (tick clock0) < Second) ->
  Forall (fun i => has_outcome i.1 = true) inputs ->
  exists st,
    Display filters render inputs term0 clock0 = Some st /\
    rps (stats st) = GoFloat.zero /\ lastRPS (stats st) = zeroTime.
Proof.
  intros Hclk Hwf.
  destruct (Display_Some_of_contract filters render inputs term0 clock0 Hwf)
    as [st Hst].
  exists st. split; [exact Hst|].
  unfold Display in Hst. cbn [now] in Hst.
  destruct (loop _ _ _ inputs) as [st1|] eqn:Hloop; [|discriminate].
  inversion Hst; subst st; clear Hst.
  apply loop_first_second in Hloop; cbn [stats clock reading] in *;
    [|exact Hclk|reflexivity..].
  destruct Hloop as (Hr & Hl & Hc & HS). cbn [initial_stats Start] in HS.
  rewrite (proj1 (closing_stats st1)), update_rate_early.
  - split; assumption.
  - apply Since_lt_Second. cbn [now snd reading tick].
    rewrite Hc, HS. apply Hclk.
Qed.

Lemma rate_stays_zero_in_first_second_witness :
  exists st,
    Display (T := Recorder) [] render_item session []
            (clock_at 1700000000000000000) = Some st /\
    rps (stats st) = GoFloat.zero /\ lastRPS (stats st) = zeroTime.
Proof.
  apply (rate_stays_zero_in_first_second (T := Recorder) [] render_item
           session [] (clock_at 1700000000000000000)).
  - intros n. vm_compute. reflexivity.
  - repeat constructor.
Defined.

(** ** The log terminal, line by line *)

Lemma rev_app_app (s t acc : string) :
  String.rev_app (s +:+ t) acc = String.rev_app t (String.rev_app s acc).
Proof.
  revert acc. induction s as [|c s IH]; intros acc; [reflexivity|].
  change (String c s +:+ t) with (String c (s +:+ t)). simpl. apply IH.
Qed.

Lemma rev_app_rev_app (s a b : string) :
  String.rev_app (String.rev_app s a) b = String.rev_app a (s +:+ b).
Proof.
  revert a b. induction s as [|c s IH]; intros a b; [reflexivity|].
  simpl. rewrite IH. reflexivity.
Qed.

Lemma rev_rev (s : string) : String.rev (String.rev s) = s.
Proof.
  unfold String.rev. rewrite rev_app_rev_app. simpl. apply string_app_nil_r.
Qed.

Lemma rev_app_acc (s acc : string) :
  String.rev_app s acc = String.rev s +:+ acc.
Proof.
  revert acc. induction s as [|c s IH]; intros acc; [reflexivity|].
  unfold String.rev. simpl. rewrite (IH (String c acc)), (IH (String c "")).
  rewrite string_app_assoc. reflexivity.
Qed.

(** [HasSuffix_nl] is [strings.HasSuffix(msg, "\n")]. *)
Lemma HasSuffix_nl_iff msg :
  HasSuffix_nl msg = true <-> exists pre, msg = pre +:+ Fmt.nl.
Proof.
  unfold HasSuffix_nl. split.
  - destruct (String.rev msg) as [|c r] eqn:Hrev; [discriminate|].
    intros Hc. apply Ascii.eqb_eq in Hc. subst c.
    exists (String.rev r). rewrite <- (rev_rev msg), Hrev.
    unfold String.rev at 1. simpl. apply rev_app_acc.
  - intros [pre ->]. unfold String.rev. rewrite rev_app_app. reflexivity.
Qed.

(** X6. [LogTerminal.Print] prints one line, which always ends with a
    newline: a message that ends with a newline is printed as it is, and
    any other message gets one newline added, so that printing a message
    with or without its final newline has the same effect on the terminal
    and on the sink. *)
Theorem LogTerminal_Print_newline (msg : string) (lt : LogTerminal) :
  (exists line pre,
      Terminal_printed (LogTerminal_Print msg lt) =
        Terminal_printed lt ++ [line] /\
      line = pre +:+ Fmt.nl /\
      (line = msg \/ (line = msg +:+ Fmt.nl /\ forall p, msg <> p +:+ Fmt.nl))) /\
  ((forall p, msg <> p +:+ Fmt.nl) ->
   LogTerminal_Print (msg +:+ Fmt.nl) lt = LogTerminal_Print msg lt).
Proof.
  unfold LogTerminal_Print.
  destruct (HasSuffix_nl msg) eqn:Hs.
  - destruct (proj1 (HasSuffix_nl_iff msg) Hs) as [pre Hpre]. split.
    + exists msg, pre. simpl. auto.
    + intros Hno. destruct (Hno pre Hpre).
  - assert (Hno : forall p, msg <> p +:+ Fmt.nl).
    { intros p Hp.
      assert (Ht : HasSuffix_nl msg = true) by (apply HasSuffix_nl_iff; eauto).
      congruence. }
    split.
    + exists (msg +:+ Fmt.nl), msg. simpl. auto.
    + intros _.
      assert (Hs' : HasSuffix_nl (msg +:+ Fmt.nl) = true)
        by (apply HasSuffix_nl_iff; eauto).
      now rewrite Hs'.
Qed.

Lemma LogTerminal_Print_newline_witness :
  LogTerminal_Print ("done" +:+ Fmt.nl) new_LogTerminal =
  LogTerminal_Print "done" new_LogTerminal.
Proof.
  apply (proj2 (LogTerminal_Print_newline "done" new_LogTerminal)).
  intros p Hp.
  assert (Hs : HasSuffix_nl "done" = true) by (apply HasSuffix_nl_iff; eauto).
  vm_compute in Hs. discriminate.
Defined.

Lemma LogTerminal_Print_plain_witness :
  exists line,
    Terminal_printed (LogTerminal_Print "404 /admin" new_LogTerminal) =
      Terminal_printed new_LogTerminal ++ [line] /\
    w (LogTerminal_Print "404 /admin" new_LogTerminal) =
      w new_LogTerminal +:+ line /\
    line = (if HasSuffix_nl "404 /admin" then "404 /admin"
            else "404 /admin" +:+ Fmt.nl).
Proof.
  apply (LogTerminal_Print_plain "404 /admin" new_LogTerminal).
  vm_compute. reflexivity.
Defined.

(** ** The log terminal under the reporter *)

Lemma concat_strings_snoc l x :
  concat_strings (l ++ [x]) = concat_strings l +:+ x.
Proof.
  unfold concat_strings. induction l as [|y l IH]; simpl.
  - apply string_app_nil_r.
  - rewrite IH. symmetry. apply string_app_assoc.
Qed.

Lemma after_calls_append lt0 events text e :
  appended_line e = Some (with_newline text) -> status_set e = None ->
  LogTerminal_Print text (after_calls lt0 events) =
  after_calls lt0 (events ++ [e]).
Proof.
  intros Ha Hs. unfold LogTerminal_Print, after_calls. simpl.
  rewrite !omap_app. simpl. rewrite Ha, Hs. simpl.
  rewrite fmap_app.
  change (Fmt.Sprintf0 <$> [with_newline text])
    with [Fmt.Sprintf0 (with_newline text)].
  rewrite concat_strings_snoc. unfold with_newline.
  rewrite !app_nil_r, <- !app_assoc, string_app_assoc. reflexivity.
Qed.

Lemma after_calls_SetStatus lt0 events lines :
  LogTerminal_SetStatus lines (after_calls lt0 events) =
  after_calls lt0 (events ++ [EvSetStatus lines]).
Proof.
  unfold LogTerminal_SetStatus, after_calls. simpl.
  rewrite !omap_app. simpl.
  rewrite !app_nil_r, <- !app_assoc. reflexivity.
Qed.

(** The loop on a log terminal and on a recording terminal, side by
    side. *)
Lemma loop_LogTerminal lt0 filters render inputs :
  forall (st1 : run_state LogTerminal) (st2 : run_state Recorder),
    stats st1 = stats st2 -> clock st1 = clock st2 ->
    term st1 = after_calls lt0 (term st2) ->
    match loop filters render st1 inputs, loop filters render st2 inputs with
    | Some st1', Some st2' =>
        stats st1' = stats st2' /\ clock st1' = clock st2' /\
        term st1' = after_calls lt0 (term st2')
    | None, None => True
    | _, _ => False
    end.
Proof.
  induction inputs as [|[r c] inputs IH]; intros st1 st2 Hs Hc Ht.
  - simpl. auto.
  - cbn [loop]. rewrite !iteration_eq, Hs, Hc.
    destruct (count_response _ r) as [h|]; [|exact I].
    cbn zeta. apply IH; cbn [stats clock term]; trivial.
    rewrite Ht. cbn [SetStatus Printf LogTerminal_Terminal Recorder_Terminal].
    destruct (print_allowed filters r).
    + unfold LogTerminal_Printf.
      rewrite (after_calls_append lt0 (term st2) _
                 (EvPrintf (render r +:+ Fmt.nl))) by reflexivity.
      apply after_calls_SetStatus.
    + apply after_calls_SetStatus.
Qed.

Lemma fold_Print_LogTerminal lt0 (lines : list string) :
  forall events,
    fold_left (fun term line => Print line term) lines (after_calls lt0 events) =
    after_calls lt0 (events ++ map EvPrint lines).
Proof.
  induction lines as [|line lines IH]; intros events; cbn [fold_left map].
  - now rewrite app_nil_r.
  - change (Print line (after_calls lt0 events))
      with (LogTerminal_Print line (after_calls lt0 events)).
    rewrite (after_calls_append lt0 events line (EvPrint line)) by reflexivity.
    rewrite IH, <- app_assoc. reflexivity.
Qed.

(** [Display] on a log terminal and on a recording terminal, side by
    side. *)
Lemma Display_LogTerminal_Recorder (filters : list ResponseFilter)
    (render : Response -> string) (inputs : list (Response * option Z))
    (lt0 : LogTerminal) (clock0 : Clock) :
  match Display (T := LogTerminal) filters render inputs lt0 clock0,
        Display (T := Recorder) filters render inputs [] clock0 with
  | Some st, Some st' =>
      stats st = stats st' /\ term st = after_calls lt0 (term st')
  | None, None => True
  | _, _ => False
  end.
Proof.
  unfold Display. destruct (now clock0) as [start clock1].
  pose proof (loop_LogTerminal lt0 filters render inputs
                {| stats := initial_stats start;
                   term := Printf header_text lt0; clock := clock1 |}
                {| stats := initial_stats start;
                   term := Printf header_text ([] : Recorder); clock := clock1 |}
                eq_refl eq_refl) as Hloop.
  cbn [term] in Hloop.
  assert (H0 : Printf header_text lt0 =
               after_calls lt0 (Printf header_text ([] : Recorder))).
  { cbn [Printf LogTerminal_Terminal Recorder_Terminal]. unfold LogTerminal_Printf.
    rewrite <- (after_calls_append lt0 [] header_text (EvPrintf header_text))
      by reflexivity.
    f_equal. unfold after_calls. simpl. rewrite !app_nil_r, string_app_nil_r.
    now destruct lt0. }
  specialize (Hloop H0).
  destruct (loop filters render _ inputs) as [st1|];
    destruct (loop filters render _ inputs) as [st2|]; try exact Hloop.
  destruct Hloop as (Hs & Hc & Ht). split.
  - rewrite (proj1 (closing_stats st1)), (proj1 (closing_stats st2)).
    now rewrite Hs, Hc.
  - unfold closing. rewrite Hs, Hc, Ht.
    destruct (now (clock st2)) as [t clock2].
    destruct (Report (stats st2) clock2 "") as [[res h] clock3].
    cbn [term Print Printf LogTerminal_Terminal Recorder_Terminal].
    unfold LogTerminal_Printf.
    rewrite (after_calls_append lt0 (term st2) Fmt.nl (EvPrint Fmt.nl))
      by reflexivity.
    rewrite (after_calls_append lt0 _ _ (EvPrintf _)) by reflexivity.
    rewrite fold_Print_LogTerminal, fold_Print_Recorder. reflexivity.
Qed.

(** X7. [LogTerminal] under the reporter is the decorator it is meant to
    be, up to the formatting of the sink: a run of [Display] on a log
    terminal leaves the same statistics as on any terminal; every line the
    reporter appends is printed on the embedded terminal, ending with a
    newline, and written to the sink through [Fprintf], in the order of
    the calls; the status lines are set on the embedded terminal and never
    written to the sink. *)
Theorem Display_on_LogTerminal (filters : list ResponseFilter)
    (render : Response -> string) (inputs : list (Response * option Z))
    (lt0 : LogTerminal) (clock0 : Clock) :
  match Display (T := LogTerminal) filters render inputs lt0 clock0,
        Display (T := Recorder) filters render inputs [] clock0 with
  | Some st, Some st' =>
      stats st = stats st' /\
      Terminal_printed (term st) =
        Terminal_printed lt0 ++ omap appended_line (term st') /\
      Terminal_status (term st) =
        Terminal_status lt0 ++ omap status_set (term st') /\
      w (term st) =
        w lt0 +:+ concat_strings (Fmt.Sprintf0 <$> omap appended_line (term st'))
  | None, None => True
  | _, _ => False
  end.
Proof.
  pose proof (Display_LogTerminal_Recorder filters render inputs lt0 clock0)
    as Hsim.
  destruct (Display (T := LogTerminal) filters render inputs lt0 clock0)
    as [st|];
    destruct (Display (T := Recorder) filters render inputs [] clock0)
      as [st'|]; try exact Hsim.
  destruct Hsim as [Hs Ht]. rewrite Ht. unfold after_calls. cbn.
  repeat split; assumption || reflexivity.
Qed.

(** ** Lines without percent sign *)

Lemma has_percent_uint u : has_percent (NilEmpty.string_of_uint u) = false.
Proof. induction u; simpl; auto. Qed.

Lemma has_percent_d z : has_percent (Fmt.d z) = false.
Proof.
  unfold Fmt.d, NilZero.string_of_int, NilZero.string_of_uint.
  destruct (Z.to_int z) as [u|u]; destruct u;
    try reflexivity; apply (has_percent_uint (_ u)) || (simpl; apply has_percent_uint).
Qed.

Lemma has_percent_zeros n : has_percent (Fmt.repeat_char "0" n) = false.
Proof. induction n; simpl; auto. Qed.

Lemma has_percent_d0 n z : has_percent (Fmt.d0 n z) = false.
Proof.
  unfold Fmt.d0, Fmt.pad0.
  destruct (z <? 0); rewrite ?has_percent_app, ?has_percent_zeros, ?has_percent_d;
    reflexivity.
Qed.

Lemma has_percent_f0 x : has_percent (Fmt.f0 x) = false.
Proof.
  destruct x as [s|s| |s m e]; try reflexivity; try (destruct s; reflexivity).
  destruct e; cbn [Fmt.f0]; rewrite has_percent_app, has_percent_d;
    destruct s; reflexivity.
Qed.

Lemma has_percent_formatSeconds x : has_percent (formatSeconds x) = false.
Proof.
  unfold formatSeconds. cbn zeta.
  destruct (0 <? _);
    rewrite ?has_percent_app, ?has_percent_d, ?has_percent_d0; reflexivity.
Qed.

Lemma has_percent_status_line h : has_percent (status_line h "") = false.
Proof.
  unfold status_line. cbn [String.eqb].
  destruct (GoFloat.gt0 (rps h)); destruct (0 <? Count h);
    rewrite ?has_percent_app, ?has_percent_d, ?has_percent_f0,
      ?has_percent_formatSeconds; reflexivity.
Qed.

Lemma has_percent_code_lines h line :
  line ∈ code_lines h -> has_percent line = false.
Proof.
  rewrite code_lines_elem. intros (code & count & _ & ->).
  now rewrite !has_percent_app, !has_percent_d.
Qed.

Lemma has_percent_with_newline msg :
  has_percent (with_newline msg) = has_percent msg.
Proof.
  unfold with_newline. destruct (HasSuffix_nl msg); [reflexivity|].
  rewrite has_percent_app. simpl. now rewrite orb_false_r.
Qed.

Lemma Sprintf0_plain_lines (lines : list string) :
  Forall (fun line => has_percent line = false) lines ->
  Fmt.Sprintf0 <$> lines = lines.
Proof.
  induction 1 as [|line lines Hl _ IH]; [reflexivity|].
  cbn [fmap list_fmap]. fold (Fmt.Sprintf0 <$> lines).
  now rewrite IH, Sprintf0_plain.
Qed.

Lemma plain_calls_lines (events : list event) :
  Forall plain_call events ->
  Forall (fun line => has_percent line = false) (omap appended_line events).
Proof.
  induction 1 as [|e events He _ IH]; [constructor|].
  cbn [omap list_omap]. fold (omap appended_line events).
  unfold plain_call in He. destruct (appended_line e); [constructor|]; assumption.
Qed.

Lemma loop_events_plain filters render (inputs : list (Response * option Z)) :
  Forall (fun i => has_percent (render i.1) = false) inputs ->
  forall reports,
    Forall plain_call (loop_events filters render inputs.*1 reports).
Proof.
  unfold loop_events.
  induction 1 as [|[r c] inputs Hr _ IH]; intros [|report reports];
    try constructor.
  change (((r, c) :: inputs).*1) with (r :: inputs.*1).
  cbn [zip_with concat]. apply Forall_app. split; [|apply IH].
  unfold iteration_events. destruct (print_allowed filters r).
  - constructor; [|constructor; [exact I|constructor]].
    unfold plain_call. cbn [appended_line].
    rewrite has_percent_with_newline, has_percent_app. simpl in Hr.
    now rewrite Hr.
  - constructor; [exact I|constructor].
Qed.

(** X8. When no result is rendered with a percent sign, the sink of a log
    terminal receives exactly the transcript: after [Display] on results
    that keep the contract, the bytes written to the sink are the lines
    printed on the embedded terminal during the run, in order and
    unchanged.  The header, the closing lines and the status-code lines
    never contain a percent sign; only the rendered results can. *)
Theorem Display_mirrors_plain_lines (filters : list ResponseFilter)
    (render : Response -> string) (inputs : list (Response * option Z))
    (lt0 : LogTerminal) (clock0 : Clock) :
  Forall (fun i => has_outcome i.1 = true) inputs ->
  Forall (fun i => has_percent (render i.1) = false) inputs ->
  exists st lines,
    Display (T := LogTerminal) filters render inputs lt0 clock0 = Some st /\
    Terminal_printed (term st) = Terminal_printed lt0 ++ lines /\
    w (term st) = w lt0 +:+ concat_strings lines.
Proof.
  intros Hwf Hplain.
  pose proof (Display_LogTerminal_Recorder filters render inputs lt0 clock0) as Hsim.
  destruct (Display_Recorder inputs clock0 Hwf) as (reports & h & clk & _ & HD).
  destruct (HD filters render) as [_ HDisplay].
  rewrite HDisplay in Hsim.
  destruct (Display (T := LogTerminal) filters render inputs lt0 clock0)
    as [st|]; [|destruct Hsim].
  destruct Hsim as (_ & Hterm).
  assert (Hprinted := f_equal Terminal_printed Hterm).
  assert (Hw := f_equal w Hterm).
  cbn [after_calls Terminal_printed w] in Hprinted, Hw.
  exists st, (omap appended_line
                (term (closing
                         {| stats := h;
                            term := EvPrintf header_text ::
                                      loop_events filters render inputs.*1 reports;
                            clock := clk |}))).
  split; [reflexivity|]. split; [exact Hprinted|].
  rewrite Hw. do 2 f_equal. apply Sprintf0_plain_lines, plain_calls_lines.
  rewrite closing_Recorder. cbn [term].
  apply Forall_app. split; [|apply Forall_app; split].
  - constructor; [reflexivity|]. now apply loop_events_plain.
  - repeat constructor; unfold plain_call; cbn [appended_line];
      rewrite has_percent_with_newline.
    + unfold processed_text.
      now rewrite !has_percent_app, has_percent_d, has_percent_formatSeconds.
    + apply has_percent_status_line.
  - apply Forall_forall. intros e He.
    apply list_elem_of_In, in_map_iff in He.
    destruct He as (line & <- & Hin). unfold plain_call. cbn [appended_line].
    rewrite has_percent_with_newline.
    eapply has_percent_code_lines, list_elem_of_In, Hin.
Qed.

Lemma Display_mirrors_plain_lines_witness :
  exists st lines,
    Display (T := LogTerminal) [] render_item session new_LogTerminal
            (clock_from 0 400000000) = Some st /\
    Terminal_printed (term st) = Terminal_printed new_LogTerminal ++ lines /\
    w (term st) = w new_LogTerminal +:+ concat_strings lines.
Proof.
  apply (Display_mirrors_plain_lines [] render_item session new_LogTerminal
           (clock_from 0 400000000)).
  - repeat constructor.
  - repeat constructor.
Defined.

(** ** A stream that is closed at once *)

Lemma gt0_zero_div y : GoFloat.gt0 (GoFloat.div (GoFloat.of_int 0) y) = false.
Proof. destruct y as [s|s| |s m e]; try destruct s; reflexivity. Qed.

Lemma update_rate_no_responses h clk :
  Responses h = 0 -> GoFloat.gt0 (rps h) = false ->
  GoFloat.gt0 (rps (update_rate h clk).1) = false.
Proof.
  intros HR Hr. unfold update_rate. cbn [now].
  destruct (0 <? _); [|exact Hr].
  destruct (Second <? _); [|exact Hr].
  cbn [fst set_lastRPS set_rps rps]. rewrite HR. apply gt0_zero_div.
Qed.

(** X9. A stream closed before any result: whatever the filters and the
    clock, the reporter never sets a status; it appends the header, a
    blank line, the final line for zero requests with the elapsed time,
    and the summary "0 requests", without rate, and no status-code line;
    the counters are zero and the histogram is empty. *)
Theorem Display_closed_at_once (filters : list ResponseFilter)
    (render : Response -> string) (clock0 : Clock) :
  exists st,
    Display (T := Recorder) filters render [] [] clock0 = Some st /\
    term st =
      [EvPrintf header_text; EvPrint Fmt.nl;
       EvPrintf (processed_text 0
                   (formatSeconds
                      (Seconds (Since (reading clock0 (S (tick clock0)))
                                      (reading clock0 (tick clock0))))));
       EvPrint "0 requests"] /\
    Responses (stats st) = 0 /\ Errors (stats st) = 0 /\
    StatusCodes (stats st) = ∅.
Proof.
  eexists. split; [reflexivity|].
  cbn [loop now fst snd]. rewrite closing_Recorder.
  rewrite (proj1 (closing_stats _)). cbn [stats term clock now fst snd reading tick].
  set (clk := {| reading := reading clock0; tick := S (S (tick clock0)) |}).
  set (h0 := initial_stats (reading clock0 (tick clock0))).
  destruct (update_rate_frame h0 clk) as (_ & Hcodes & Herr & Hresp & Hcount).
  pose proof (update_rate_no_responses h0 clk eq_refl eq_refl) as Hr.
  cbn zeta in *.
  split; [|split; [exact Hresp|split; [exact Herr|exact Hcodes]]].
  change (Responses h0) with 0. change (Start h0) with (reading clock0 (tick clock0)).
  unfold code_lines. rewrite Hcodes. change (StatusCodes h0) with (∅ : gmap Z Z).
  rewrite map_to_list_empty. cbn [fmap list_fmap map app].
  unfold status_line. rewrite Hr, Hresp, Hcount. reflexivity.
Qed.

(** ** Negative durations *)

(** The integer part of a finite float that denotes the integer [z]. *)
Lemma trunc_whole s m e z :
  (GoFloat.value (S754_finite s m e) == inject_Z z)%Q ->
  GoFloat.trunc (S754_finite s m e) = Some z.
Proof.
  destruct e as [|p|k]; cbn [GoFloat.value GoFloat.trunc]; unfold Qeq; simpl;
    intros Hv; f_equal.
  - lia.
  - lia.
  - rewrite Z.mul_1_r, pow2_pos_Z in Hv. rewrite Hv.
    apply Z.quot_mul. pose proof (Z.pow_pos_nonneg 2 (Zpos k)). lia.
Qed.

(** [int(float64(n))] is [n] below [2^53]. *)
Lemma to_int_of_int n :
  - 2 ^ 53 < n < 2 ^ 53 -> GoFloat.to_int (GoFloat.of_int n) = n.
Proof.
  intros Hn. unfold GoFloat.to_int.
  assert (Ht : GoFloat.trunc (GoFloat.of_int n) = Some n).
  { unfold GoFloat.of_int, binary_normalize. destruct n as [|n|n].
    - reflexivity.
    - destruct (binary_round_exact false n ltac:(lia)) as (m & e & -> & Hv).
      now apply trunc_whole.
    - destruct (binary_round_exact true n ltac:(lia)) as (m & e & -> & Hv).
      now apply trunc_whole. }
  rewrite Ht. unfold GoInt.min_int, GoInt.max_int.
  destruct (Z.leb_spec (- 2 ^ 63) n); [|lia].
  destruct (Z.leb_spec n (2 ^ 63 - 1)); [reflexivity|lia].
Qed.

Lemma rem_3600_rem_60 k : k <= 0 -> Z.rem (Z.rem k 3600) 60 = Z.rem k 60.
Proof.
  intros Hk.
  pose proof (Z.quot_rem' k 3600) as Hq.
  pose proof (Z.quot_rem' k 60) as Hq60.
  pose proof (Z.quot_rem' (Z.rem k 3600) 60) as Hq'.
  pose proof (Z.rem_bound_pos_neg k 3600 ltac:(lia) Hk) as Hr.
  pose proof (Z.rem_bound_pos_neg k 60 ltac:(lia) Hk) as Hr60.
  pose proof (Z.rem_bound_pos_neg (Z.rem k 3600) 60 ltac:(lia) ltac:(lia)) as Hr'.
  lia.
Qed.

(** X10. [formatSeconds] never shows the hours of a negative duration:
    minus [n] whole seconds are rendered as signed minutes and signed
    seconds of the remainder modulo one hour, so that durations which
    differ by whole hours look alike (minus 3661 seconds read "-1m-1s",
    as minus 61 seconds do). *)
Theorem formatSeconds_negative (n : Z) :
  - 2 ^ 53 < n < 0 ->
  formatSeconds (GoFloat.of_int n) =
    Fmt.d (Z.quot (Z.rem n 3600) 60) +:+ "m" +:+ Fmt.d0 2 (Z.rem n 60) +:+ "s" /\
  formatSeconds (GoFloat.of_int n) = formatSeconds (GoFloat.of_int (Z.rem n 3600)).
Proof.
  assert (Hone : forall k, - 2 ^ 53 < k <= 0 ->
            formatSeconds (GoFloat.of_int k) =
            Fmt.d (Z.quot (Z.rem k 3600) 60) +:+ "m" +:+
            Fmt.d0 2 (Z.rem k 60) +:+ "s").
  { intros k Hk. unfold formatSeconds. rewrite to_int_of_int by lia.
    unfold GoInt.quot, GoInt.sub, GoInt.mul.
    pose proof (Z.quot_rem' k 3600) as Hq.
    pose proof (Z.rem_bound_pos_neg k 3600 ltac:(lia) ltac:(lia)) as Hr.
    assert (Hh : k <= Z.quot k 3600 <= 0) by lia.
    rewrite (wrap_id (Z.quot k 3600))
      by (unfold GoInt.in_range, GoInt.min_int, GoInt.max_int; lia).
    rewrite (wrap_id (Z.quot k 3600 * 3600))
      by (unfold GoInt.in_range, GoInt.min_int, GoInt.max_int; lia).
    replace (k - Z.quot k 3600 * 3600) with (Z.rem k 3600) by lia.
    rewrite (wrap_id (Z.rem k 3600))
      by (unfold GoInt.in_range, GoInt.min_int, GoInt.max_int; lia).
    pose proof (Z.quot_rem' (Z.rem k 3600) 60) as Hq'.
    pose proof (Z.rem_bound_pos_neg (Z.rem k 3600) 60 ltac:(lia) ltac:(lia)) as Hr'.
    assert (Hm : -60 < Z.quot (Z.rem k 3600) 60 <= 0) by lia.
    rewrite (wrap_id (Z.quot (Z.rem k 3600) 60))
      by (unfold GoInt.in_range, GoInt.min_int, GoInt.max_int; lia).
    rewrite (wrap_id (Z.quot (Z.rem k 3600) 60 * 60))
      by (unfold GoInt.in_range, GoInt.min_int, GoInt.max_int; lia).
    replace (Z.rem k 3600 - Z.quot (Z.rem k 3600) 60 * 60)
      with (Z.rem (Z.rem k 3600) 60) by lia.
    rewrite rem_3600_rem_60 by lia.
    rewrite (wrap_id (Z.rem k 60)).
    - destruct (Z.ltb_spec 0 (Z.quot k 3600)); [lia|reflexivity].
    - pose proof (Z.rem_bound_pos_neg k 60 ltac:(lia) ltac:(lia)).
      unfold GoInt.in_range, GoInt.min_int, GoInt.max_int. lia. }
  intros Hn. split; [apply Hone; lia|].
  pose proof (Z.rem_bound_pos_neg n 3600 ltac:(lia) ltac:(lia)) as Hr.
  rewrite (Hone n) by lia. rewrite (Hone (Z.rem n 3600)) by lia.
  assert (Hrem : Z.rem (Z.rem n 3600) 3600 = Z.rem n 3600)
    by (apply Z.rem_small_iff; lia).
  rewrite Hrem.
  rewrite rem_3600_rem_60 by lia. reflexivity.
Qed.

Lemma formatSeconds_negative_witness :
  formatSeconds (GoFloat.of_int (-3661)) = "-1m-1s" /\
  formatSeconds (GoFloat.of_int (-3661)) = formatSeconds (GoFloat.of_int (-61)).
Proof.
  apply (formatSeconds_negative (-3661)). vm_compute. split; reflexivity.
Defined.

(** ** What the status shows *)

Lemma loop_events_statuses filters render responses :
  forall reports,
    length reports = length responses ->
    omap status_set (loop_events filters render responses reports) = reports.
Proof.
  unfold loop_events.
  induction responses as [|r responses IH]; intros [|report reports] Hlen;
    try discriminate; [reflexivity|].
  cbn [zip_with concat]. rewrite omap_app, IH by (simpl in Hlen; lia).
  unfold iteration_events. destruct (print_allowed filters r); reflexivity.
Qed.

(** The loop on a recording terminal again, now with the statistics that
    each status reports. *)
Lemma loop_Recorder_stats inputs :
  forall h clk done n e,
    Forall (fun i => has_outcome i.1 = true) inputs ->
    counted n e h ->
    n + Z.of_nat (length inputs) <= GoInt.max_int ->
    histogram_of done (StatusCodes h) ->
    exists hs h' clk',
      length hs = length inputs /\
      (forall i hi,
          hs !! i = Some hi ->
          Responses hi = n + Z.of_nat (S i) /\
          histogram_of (done ++ take (S i) inputs.*1) (StatusCodes hi)) /\
      forall filters render (t : Recorder),
        loop filters render {| stats := h; term := t; clock := clk |} inputs =
        Some {| stats := h';
                term := t ++ loop_events filters render inputs.*1
                                (zip_with report_of hs inputs);
                clock := clk' |}.
Proof.
  induction inputs as [|[r c] inputs IH]; intros h clk done n e Hwf Hn Hmax Hh.
  - exists [], h, clk. split; [reflexivity|]. split; [intros i hi; discriminate|].
    intros filters render t. unfold loop_events. simpl. now rewrite app_nil_r.
  - apply Forall_cons in Hwf. destruct Hwf as [Hr Hwf]. simpl in Hr.
    assert (Hlen : Z.of_nat (length ((r, c) :: inputs)) =
                   1 + Z.of_nat (length inputs)) by (simpl length; lia).
    rewrite Hlen in Hmax.
    pose proof (Nat2Z.is_nonneg (length inputs)) as Hpos.
    set (h0 := match c with Some c0 => set_Count h c0 | None => h end).
    assert (Hn0 : counted n e h0 /\ StatusCodes h0 = StatusCodes h)
      by (subst h0; destruct c; split; trivial).
    destruct Hn0 as [Hn0 HS0].
    destruct (has_outcome_count h0 r Hr) as [h1 Hh1].
    pose proof (count_response_counted n e h0 r h1 Hh1 ltac:(lia) Hn0) as Hn1.
    assert (Hhist1 : histogram_of (done ++ [r]) (StatusCodes h1)).
    { apply (count_response_histogram n e done h0 r h1 Hh1); trivial; [lia|].
      now rewrite HS0. }
    set (h2 := (update_rate h1 clk).1).
    destruct (update_rate_frame h1 clk) as (_ & Hcodes & Herr & Hresp & _).
    fold h2 in Hcodes, Herr, Hresp.
    assert (Hn2 : counted (n + 1) (e + if is_error r then 1 else 0) h2)
      by (apply (counted_ext _ _ h1); trivial).
    assert (Hhist2 : histogram_of (done ++ [r]) (StatusCodes h2))
      by (now rewrite Hcodes).
    destruct (IH h2 (update_rate h1 clk).2 (done ++ [r]) _ _ Hwf Hn2
                ltac:(lia) Hhist2)
      as (hs & h' & clk' & Hlenhs & Hhs & Hloop).
    exists (h2 :: hs), h', clk'. split; [simpl; now rewrite Hlenhs|]. split.
    + intros [|i] hi Hi.
      * inversion Hi; subst hi. split.
        -- destruct Hn2 as [-> _]. lia.
        -- exact Hhist2.
      * destruct (Hhs i hi Hi) as [HR HH]. split; [lia|].
        change (((r, c) :: inputs).*1) with (r :: inputs.*1).
        cbn [take]. now rewrite <- app_assoc in HH.
    + intros filters render t. cbn [loop]. rewrite iteration_eq.
      cbn [stats term clock]. fold h0. rewrite Hh1. cbn zeta. fold h2.
      change ("" :: status_line h2 (Item r) :: code_lines h2)
        with (report_of h2 (r, c)).
      rewrite iteration_events_Recorder, Hloop.
      unfold loop_events. simpl. now rewrite <- app_assoc.
Qed.

(** X11. The status set after a result already counts that result: on
    results that keep the contract (not more than the largest [int]), the
    statuses set during [Display] are, in order, one per result, the
    report under the label of the result of statistics whose [Responses]
    is the number of results received so far, that one included, and
    whose histogram counts exactly these results. *)
Theorem statuses_count_their_result (filters : list ResponseFilter)
    (render : Response -> string) (inputs : list (Response * option Z))
    (clock0 : Clock) :
  Forall (fun i => has_outcome i.1 = true) inputs ->
  Z.of_nat (length inputs) <= GoInt.max_int ->
  exists st hs,
    Display (T := Recorder) filters render inputs [] clock0 = Some st /\
    omap status_set (term st) = zip_with report_of hs inputs /\
    length hs = length inputs /\
    forall i hi,
      hs !! i = Some hi ->
      Responses hi = Z.of_nat (S i) /\
      histogram_of (take (S i) inputs.*1) (StatusCodes hi).
Proof.
  intros Hwf Hmax.
  destruct (loop_Recorder_stats inputs (initial_stats (now clock0).1)
              (now clock0).2 [] 0 0 Hwf (counted_initial _) ltac:(lia))
    as (hs & h' & clk' & Hlen & Hhs & Hloop).
  { intros k. simpl. apply lookup_empty. }
  specialize (Hloop filters render [EvPrintf header_text]).
  eexists _, hs. split; [|split; [|split; [exact Hlen|exact Hhs]]].
  - unfold Display. cbn [Printf Recorder_Terminal app].
    destruct (now clock0) as [start clock1]. cbn [fst snd] in Hloop.
    rewrite Hloop. reflexivity.
  - rewrite closing_Recorder. cbn [term].
    rewrite !omap_app. cbn [omap list_omap status_set app].
    rewrite loop_events_statuses
      by (rewrite length_zip_with, length_fmap; lia).
    assert (Hnone : forall lines, omap status_set (map EvPrint lines) = []).
    { induction lines as [|l lines IHl]; [reflexivity|exact IHl]. }
    fold (omap status_set
            (map EvPrint (code_lines (stats (closing
               {| stats := h';
                  term := [EvPrintf header_text] ++
                          loop_events filters render inputs.*1
                            (zip_with report_of hs inputs);
                  clock := clk' |}))))).
    rewrite Hnone, app_nil_r. reflexivity.
Qed.

Lemma statuses_count_their_result_witness :
  exists st hs,
    Display (T := Recorder) [reject_all] render_item session []
            (clock_from 0 400000000) = Some st /\
    omap status_set (term st) = zip_with report_of hs session /\
    length hs = length session /\
    forall i hi,
      hs !! i = Some hi ->
      Responses hi = Z.of_nat (S i) /\
      histogram_of (take (S i) session.*1) (StatusCodes hi).
Proof.
  apply (statuses_count_their_result [reject_all] render_item session
           (clock_from 0 400000000)).
  - repeat constructor.
  - vm_compute. discriminate.
Defined.

(** ** The filters and the result lines *)

Lemma print_allowed_app filters1 filters2 r :
  print_allowed (filters1 ++ filters2) r =
  print_allowed filters1 r && print_allowed filters2 r.
Proof.
  induction filters1 as [|f filters1 IH]; [reflexivity|].
  simpl. destruct (f r); [reflexivity|exact IH].
Qed.

(** X12. The filters act together as one: a result is printed under two
    lists of filters put one after the other exactly when it is printed
    under each of them, and the order in which the filters are listed
    makes no difference to what is printed. *)
Theorem print_allowed_composes :
  (forall (filters1 filters2 : list ResponseFilter) (r : Response),
      print_allowed (filters1 ++ filters2) r =
      print_allowed filters1 r && print_allowed filters2 r) /\
  (forall (filters1 filters2 : list ResponseFilter) (r : Response),
      Permutation filters1 filters2 ->
      print_allowed filters1 r = print_allowed filters2 r).
Proof.
  split; [exact print_allowed_app|].
  intros filters1 filters2 r Hperm.
  induction Hperm as [|f l1 l2 _ IH|f g l|l1 l2 l3 _ IH1 _ IH2]; simpl.
  - reflexivity.
  - now rewrite IH.
  - destruct (f r), (g r); reflexivity.
  - congruence.
Qed.

Lemma print_allowed_composes_witness :
  print_allowed [reject_none; reject_all] (response_of "a" 200) =
  print_allowed [reject_all; reject_none] (response_of "a" 200).
Proof.
  apply (proj2 print_allowed_composes [reject_none; reject_all]
           [reject_all; reject_none] (response_of "a" 200)).
  apply perm_swap.
Defined.

Lemma loop_events_printf filters render responses :
  forall reports,
    length reports = length responses ->
    omap printf_text (loop_events filters render responses reports) =
    map (fun r => render r +:+ Fmt.nl)
        (List.filter (print_allowed filters) responses).
Proof.
  unfold loop_events.
  induction responses as [|r responses IH]; intros [|report reports] Hlen;
    try discriminate; [reflexivity|].
  cbn [zip_with concat List.filter]. rewrite omap_app, IH by (simpl in Hlen; lia).
  unfold iteration_events. destruct (print_allowed filters r); reflexivity.
Qed.

(** X13. The result lines of the transcript: on results that keep the
    contract, the [Printf] calls of [Display] are the header, then one
    line for each result that no filter rejects, in the order of the
    results and whether or not the result is an error, then the final
    line with the number of responses. *)
Theorem Display_result_lines (filters : list ResponseFilter)
    (render : Response -> string) (inputs : list (Response * option Z))
    (clock0 : Clock) :
  Forall (fun i => has_outcome i.1 = true) inputs ->
  exists st elapsed,
    Display (T := Recorder) filters render inputs [] clock0 = Some st /\
    omap printf_text (term st) =
      header_text ::
      map (fun r => render r +:+ Fmt.nl)
          (List.filter (print_allowed filters) inputs.*1) ++
      [processed_text (Responses (stats st)) elapsed].
Proof.
  intros Hwf.
  destruct (Display_Recorder inputs clock0 Hwf) as (reports & h & clk & Hlen & HD).
  destruct (HD filters render) as [_ HDisplay].
  assert (HR : forall st1 : run_state Recorder,
             Responses (stats (closing st1)) = Responses (stats st1)).
  { intros st1. rewrite (proj1 (closing_stats st1)).
    destruct (update_rate_frame (stats st1) (now (clock st1)).2)
      as (_ & _ & _ & HR & _). exact HR. }
  eexists _, (formatSeconds (Seconds (Since (now clk).1 (Start h)))).
  split; [exact HDisplay|].
  rewrite closing_Recorder. cbn [term stats clock].
  change (EvPrintf header_text :: loop_events filters render inputs.*1 reports)
    with ([EvPrintf header_text] ++ loop_events filters render inputs.*1 reports).
  rewrite !omap_app, loop_events_printf by (rewrite length_fmap; exact Hlen).
  cbn [omap list_omap printf_text app].
  assert (Hnone : forall lines, omap printf_text (map EvPrint lines) = []).
  { induction lines as [|l lines IHl]; [reflexivity|exact IHl]. }
  rewrite Hnone. do 3 f_equal. symmetry. f_equal. apply HR.
Qed.

Lemma Display_result_lines_witness :
  exists st elapsed,
    Display (T := Recorder) [fun r => is_error r] render_item session []
            (clock_from 0 400000000) = Some st /\
    omap printf_text (term st) =
      header_text ::
      map (fun r => render_item r +:+ Fmt.nl)
          (List.filter (print_allowed [fun r => is_error r]) session.*1) ++
      [processed_text (Responses (stats st)) elapsed].
Proof.
  apply (Display_result_lines [fun r => is_error r] render_item session
           (clock_from 0 400000000)).
  repeat constructor.
Defined.

Lemma code_lines_any_order_witness :
  sort_strings (code_line <$> [(99, 1); (100, 1)]) = code_lines codes_99_100 /\
  sort_strings (code_line <$> [(100, 1); (99, 1)]) = code_lines codes_99_100.
Proof.
  split.
  - apply (code_lines_any_order codes_99_100 [(99, 1); (100, 1)]).
    vm_compute. first [reflexivity | apply perm_swap].
  - apply (code_lines_any_order codes_99_100 [(100, 1); (99, 1)]).
    vm_compute. first [reflexivity | apply perm_swap].
Defined.
